(** * Olist financial dashboard: the transformation pipeline

    A shallow embedding of the relational core of [data_pipeline.py] (the
    batch export) and [streamlit_app.py] (the interactive view): loading,
    the cleaner, the joiner and the grouped aggregates, followed by the
    properties the specification states about them.

    Conventions of the embedding.
    - A DataFrame is a [list] of rows, in row order; a row is a record whose
      fields carry the column names of the CSV files.
    - A column is nullable ([option]) exactly where the pipeline itself
      produces or handles missing values: timestamps after
      [pd.to_datetime(..., errors='coerce')] ([None] is [NaT]), the product
      category, and every column brought in by a left merge.  Identifier
      columns and the key column of the translation table are present in
      every row.
    - float64 money columns and their sums are idealised as exact
      rationals ([Q]); the non-finite results of a division of such
      amounts are the extra constructors of [float64].
    - The growth columns and the rounding of the exported cells, whose
      last decimal depends on how float64 rounds the intermediate results,
      are computed in IEEE binary64, with Rocq's primitive floats
      ([PrimFloat.float]), from the float64 nearest to each amount. *)

From Stdlib Require Import List String Ascii Bool Arith ZArith QArith Qround Lia.
From Stdlib Require Import DecimalString.
From Stdlib Require PrimFloat.
From Stdlib Require Import Permutation Sorted RelationClasses.
Import ListNotations.

Local Open Scope string_scope.
Local Open Scope list_scope.

(** ** Keys of [groupby] and [sort_values] *)

Class KeyType (K : Type) : Type := {
  keqb : K -> K -> bool;
  kleb : K -> K -> bool;
  keqb_eq : forall a b, keqb a b = true <-> a = b;
  kleb_total : forall a b, kleb a b = true \/ kleb b a = true;
  kleb_antisym : forall a b, kleb a b = true -> kleb b a = true -> a = b
}.

#[export] Instance string_key : KeyType string := {
  keqb := String.eqb;
  kleb := String.leb;
  keqb_eq := String.eqb_eq;
  kleb_total := String.leb_total;
  kleb_antisym := String.leb_antisym
}.

#[export, refine] Instance Z_key : KeyType Z := {
  keqb := Z.eqb;
  kleb := Z.leb;
  keqb_eq := Z.eqb_eq
}.
Proof.
  - intros a b. destruct (Z.leb_spec a b); [now left | right; apply Z.leb_le; lia].
  - intros a b. rewrite !Z.leb_le. lia.
Defined.

(** ** DataFrame operations *)

Section Frames.
Context {R : Type}.

(** [sort_values]: ascending by [le], keeping the input order of rows that
    compare equal. *)
Fixpoint insert_sorted (le : R -> R -> bool) (x : R) (l : list R) : list R :=
  match l with
  | [] => [x]
  | y :: t => if le x y then x :: y :: t else y :: insert_sorted le x t
  end.

Fixpoint sort_values (le : R -> R -> bool) (l : list R) : list R :=
  match l with
  | [] => []
  | x :: t => insert_sorted le x (sort_values le t)
  end.

(** [df.head(n)] *)
Definition head (n : nat) (l : list R) : list R := firstn n l.

End Frames.

Section Merge.
Context {L R : Type}.

(** [left.merge(right, on=..., how='inner')]: every pair of rows that agree
    on the key, in the order of the left rows. *)
Definition merge_inner (on : L -> R -> bool) (left : list L) (right : list R)
  : list (L * R) :=
  flat_map (fun l => map (pair l) (filter (on l) right)) left.

(** [how='left']: a left row without a partner is kept once, with the
    columns of the right table missing. *)
Definition merge_left (on : L -> R -> bool) (left : list L) (right : list R)
  : list (L * option R) :=
  flat_map (fun l =>
              match filter (on l) right with
              | [] => [(l, None)]
              | ms => map (fun r => (l, Some r)) ms
              end) left.

End Merge.

Section GroupBy.
Context {R K : Type} `{KeyType K}.

(** The distinct values of a key column. *)
Fixpoint unique (l : list K) : list K :=
  match l with
  | [] => []
  | x :: t => if existsb (keqb x) t then unique t else x :: unique t
  end.

(** The non-missing cells of a column, in row order. *)
Definition dropna (l : list (option K)) : list K :=
  flat_map (fun c => match c with Some k => [k] | None => [] end) l.

Definition has_key (key : R -> option K) (k : K) (r : R) : bool :=
  match key r with Some k' => keqb k' k | None => false end.

(** [df.groupby(key)]: one group per distinct non-missing key, groups in
    ascending key order (pandas' [sort=True]), rows of a group in input
    order; rows whose key is missing belong to no group. *)
Definition groupby (key : R -> option K) (rows : list R)
  : list (K * list R) :=
  map (fun k => (k, filter (has_key key k) rows))
      (sort_values kleb (unique (dropna (map key rows)))).

End GroupBy.

(** [Series.fillna(v)] on one cell. *)
Definition fillna {A : Type} (v : A) (c : option A) : option A :=
  match c with
  | Some x => Some x
  | None => Some v
  end.

(** ** Numbers *)

(** A float64 result: a number, an infinity or NaN. *)
Inductive float64 : Type :=
  | Num (q : Q)
  | Inf (negative : bool)
  | NaN.

(** [x / y] on floats of numpy: dividing by zero does not raise, it yields
    NaN for [0 / 0] and a signed infinity otherwise. *)
Definition truediv (x y : Q) : float64 :=
  if Qeq_bool y 0 then
    if Qeq_bool x 0 then NaN
    else Inf (match (x ?= 0)%Q with Lt => true | _ => false end)
  else Num (x / y).

(** Multiplying by a positive number leaves the non-finite values as
    they are. *)
Definition fmul_pos (x : float64) (c : Q) : float64 :=
  match x with Num q => Num (q * c) | other => other end.

(** ** Aggregation functions *)

Definition agg_sum (l : list Q) : Q := fold_right Qplus 0%Q l.

(** ['first']: the first value of the group. *)
Definition agg_first {A : Type} (l : list A) : option A := hd_error l.

(** ['max']: missing on an empty column. *)
Definition agg_max (l : list Z) : option Z :=
  match l with
  | [] => None
  | x :: t => Some (fold_left Z.max t x)
  end.

(** ['count'] *)
Definition agg_count {A : Type} (l : list A) : nat := List.length l.

(** ['nunique']: the number of distinct values. *)
Definition agg_nunique {K : Type} `{KeyType K} (l : list K) : nat :=
  List.length (unique l).

(** ['mean'] of a non-empty group. *)
Definition agg_mean (l : list Q) : Q :=
  agg_sum l / inject_Z (Z.of_nat (List.length l)).

(** ** IEEE binary64 *)

Module Float64.
Import PrimFloat.
Local Open Scope float_scope.

(** An integer as a float64; exact below 2^53. *)
Fixpoint of_pos (p : positive) : float :=
  match p with
  | xH => one
  | xO q => two * of_pos q
  | xI q => two * of_pos q + one
  end.

Definition of_Z (z : Z) : float :=
  match z with
  | Z0 => zero
  | Zpos p => of_pos p
  | Zneg p => - of_pos p
  end.

(** The float64 nearest to an exact amount: one correctly rounded division
    of the numerator by the denominator of its lowest terms (both below
    2^53 for money amounts). *)
Definition of_Q (q : Q) : float :=
  of_Z (Qnum (Qred q)) / of_pos (Qden (Qred q)).

Definition two52 : float := of_Z (2 ^ 52).

(** [rint]: the nearest integer, ties to the even one, keeping the sign
    (also of a zero).  Below 2^52, adding and subtracting 2^52 rounds away
    the fraction; from 2^52 on every float64 is an integer. *)
Definition np_rint (x : float) : float :=
  if abs x <? two52 then
    let r := abs x + two52 - two52 in
    if x <? zero then - r else if x =? zero then x else r
  else x.

(** [round(decimals)] of numpy: multiply by [10 ** decimals], [rint],
    divide. *)
Definition np_round (decimals : nat) (x : float) : float :=
  np_rint (x * of_Z (10 ^ Z.of_nat decimals)) / of_Z (10 ^ Z.of_nat decimals).

(** [Series.pct_change()]: [data / data.shift(1) - 1]; the first entry has
    no predecessor and is NaN. *)
Fixpoint pct_change_from (prev : float) (l : list float) : list float :=
  match l with
  | [] => []
  | x :: t => (x / prev - one) :: pct_change_from x t
  end.

Definition pct_change (l : list float) : list float :=
  match l with
  | [] => []
  | x :: t => nan :: pct_change_from x t
  end.

End Float64.

(** The float64 of the result of one division of exact amounts. *)
Definition to_float (x : float64) : PrimFloat.float :=
  match x with
  | Num q => Float64.of_Q q
  | Inf negative =>
      if negative then PrimFloat.neg_infinity else PrimFloat.infinity
  | NaN => PrimFloat.nan
  end.

(** ** Timestamps and periods *)

Record timestamp : Type := {
  year : nat;
  month : nat;
  day : nat;
  hour : nat;
  minute : nat;
  second : nat
}.

(** Decimal digits of [n], padded with zeros on the left to [width]. *)
Fixpoint zeros (n : nat) : string :=
  match n with
  | O => EmptyString
  | S k => String "0" (zeros k)
  end.

Definition zfill (width n : nat) : string :=
  let s := NilEmpty.string_of_uint (Nat.to_uint n) in
  zeros (width - String.length s) ++ s.

(** [str(ts)] of a parsed timestamp, the form of the CSV cells:
    [YYYY-MM-DD HH:MM:SS]. *)
Definition timestamp_str (t : timestamp) : string :=
  zfill 4 (year t) ++ "-" ++ zfill 2 (month t) ++ "-" ++ zfill 2 (day t)
  ++ " " ++ zfill 2 (hour t) ++ ":" ++ zfill 2 (minute t)
  ++ ":" ++ zfill 2 (second t).

(** [.dt.to_period('M').astype(str)]: [YYYY-MM]; NaT prints as ["NaT"]. *)
Definition period_M_str (ts : option timestamp) : string :=
  match ts with
  | Some t => zfill 4 (year t) ++ "-" ++ zfill 2 (month t)
  | None => "NaT"
  end.

(** The quarter of a month, 1 to 4. *)
Definition quarter_of_month (m : nat) : nat := (m - 1) / 3 + 1.

(** [.dt.to_period('Q').astype(str)]: pandas prints a quarterly period as
    the year, the letter Q and the quarter, as in ["2017Q1"] (the form the
    interactive view compares against). *)
Definition period_Q_str (ts : option timestamp) : string :=
  match ts with
  | Some t => zfill 4 (year t) ++ "Q" ++ zfill 1 (quarter_of_month (month t))
  | None => "NaT"
  end.

(** ** Raw tables

    Columns no modelled stage reads are left out.  The date columns of the
    Order table hold the result of [pd.to_datetime(..., errors='coerce')]. *)

Module Order.
Record t : Type := {
  order_id : string;
  customer_id : string;
  order_status : string;
  order_purchase_timestamp : option timestamp;
  order_delivered_customer_date : option timestamp;
  order_estimated_delivery_date : option timestamp
}.
End Order.

Module Item.
Record t : Type := {
  order_id : string;
  product_id : string;
  seller_id : string;
  price : Q;
  freight_value : Q
}.
End Item.

Module Payment.
Record t : Type := {
  order_id : string;
  payment_type : string;
  payment_installments : Z;
  payment_value : Q
}.
End Payment.

Module Review.
Record t : Type := {
  order_id : string;
  review_score : Z
}.
End Review.

Module Customer.
Record t : Type := {
  customer_id : string;
  customer_state : string;
  customer_city : string
}.
End Customer.

Module Product.
Record t : Type := {
  product_id : string;
  product_category_name : option string
}.
End Product.

Module Seller.
Record t : Type := {
  seller_id : string;
  seller_state : string;
  seller_city : string
}.
End Seller.

Module Translation.
Record t : Type := {
  product_category_name : string;
  product_category_name_english : string
}.
End Translation.

(** The eight tables of one run. *)
Record tables : Type := {
  orders : list Order.t;
  items : list Item.t;
  payments : list Payment.t;
  reviews : list Review.t;
  customers : list Customer.t;
  products : list Product.t;
  sellers : list Seller.t;
  translations : list Translation.t
}.

(** ** Cleaner *)

Module Delivered.
Record t : Type := {
  order : Order.t;
  year_month : string;
  quarter : string;
  year : option nat
}.
Definition order_id (d : t) : string := Order.order_id (order d).
Definition customer_id (d : t) : string := Order.customer_id (order d).
Definition order_purchase_timestamp (d : t) : option timestamp :=
  Order.order_purchase_timestamp (order d).
End Delivered.

(** [orders[orders['order_status'] == 'delivered']] with the time
    dimensions added.  The interactive view derives the same [year_month]
    and [quarter]; it has no [year] column and never reads one. *)
Definition delivered (orders : list Order.t) : list Delivered.t :=
  map (fun o =>
         {| Delivered.order := o;
            Delivered.year_month :=
              period_M_str (Order.order_purchase_timestamp o);
            Delivered.quarter :=
              period_Q_str (Order.order_purchase_timestamp o);
            Delivered.year :=
              option_map year (Order.order_purchase_timestamp o) |})
      (filter (fun o => Order.order_status o =? "delivered") orders).

(** ** Joiner: items with their English category *)

Module EnrichedItem.
Record t : Type := {
  item : Item.t;
  product_category_name : option string;
  product_category_name_english : option string
}.
Definition order_id (e : t) : string := Item.order_id (item e).
End EnrichedItem.

(** The two left merges, before any replacement of missing values. *)
Definition items_merged (items : list Item.t) (products : list Product.t)
  (translations : list Translation.t) : list EnrichedItem.t :=
  let with_category :=
    map (fun ip : Item.t * option Product.t =>
           (fst ip,
            match snd ip with
            | Some p => Product.product_category_name p
            | None => None
            end))
        (merge_left (fun i p => Item.product_id i =? Product.product_id p)
                    items products) in
  map (fun ct : (Item.t * option string) * option Translation.t =>
         {| EnrichedItem.item := fst (fst ct);
            EnrichedItem.product_category_name := snd (fst ct);
            EnrichedItem.product_category_name_english :=
              option_map Translation.product_category_name_english (snd ct) |})
      (merge_left (fun ic tr =>
                     match snd ic with
                     | Some c => c =? Translation.product_category_name tr
                     | None => false
                     end)
                  with_category translations).

(** [frame[column].fillna(value, inplace=True)], a chained call: the
    selection [frame[column]] is an object of its own and the fill is done
    in that object.  Whether the frame sees it depends on whether the
    selection shares the cells of the frame.  Under copy-on-write, the only
    mode of pandas from version 3 on, it never does, and the frame keeps
    its missing cells; before, the selection was a view of the frame and
    the frame was filled (with a warning that this would stop). *)
Definition fillna_inplace_on_selection (copy_on_write : bool)
  (value : string) (frame : list EnrichedItem.t) : list EnrichedItem.t :=
  let filled :=
    map (fun e =>
           {| EnrichedItem.item := EnrichedItem.item e;
              EnrichedItem.product_category_name :=
                EnrichedItem.product_category_name e;
              EnrichedItem.product_category_name_english :=
                fillna value (EnrichedItem.product_category_name_english e) |})
        frame in
  if copy_on_write then frame else filled.

(** Batch export: [items_enriched] after its chained in-place fill, as
    pandas runs it today (no version is pinned). *)
Definition items_enriched (items : list Item.t) (products : list Product.t)
  (translations : list Translation.t) : list EnrichedItem.t :=
  fillna_inplace_on_selection true "other"
    (items_merged items products translations).

(** Interactive view: [items_e], with the filled value in a new column
    [category]. *)
Module AppItem.
Record t : Type := {
  merged : EnrichedItem.t;
  category : option string
}.
Definition order_id (e : t) : string := EnrichedItem.order_id (merged e).
End AppItem.

Definition items_e (items : list Item.t) (products : list Product.t)
  (translations : list Translation.t) : list AppItem.t :=
  map (fun e =>
         {| AppItem.merged := e;
            AppItem.category :=
              fillna "other" (EnrichedItem.product_category_name_english e) |})
      (items_merged items products translations).

(** ** Joiner: payments per order *)

Module AggregatedPayment.
Record t : Type := {
  order_id : string;
  payment_value : Q;
  payment_type : option string;
  max_installments : option Z
}.
End AggregatedPayment.

Definition order_payments (payments : list Payment.t)
  : list AggregatedPayment.t :=
  map (fun g : string * list Payment.t =>
         {| AggregatedPayment.order_id := fst g;
            AggregatedPayment.payment_value :=
              agg_sum (map Payment.payment_value (snd g));
            AggregatedPayment.payment_type :=
              agg_first (map Payment.payment_type (snd g));
            AggregatedPayment.max_installments :=
              agg_max (map Payment.payment_installments (snd g)) |})
      (groupby (fun p => Some (Payment.order_id p)) payments).

(** ** Joiner: the master table *)

(** The analysis window, compared as strings:
    [(year_month >= '2017-01') & (year_month <= '2018-08')]. *)
Definition in_window (year_month : string) : bool :=
  ("2017-01" <=? year_month) && (year_month <=? "2018-08").

Module MasterRow.
Record t : Type := {
  delivered : Delivered.t;
  item : EnrichedItem.t;
  payment : option AggregatedPayment.t;
  customer : option Customer.t;
  seller : option Seller.t
}.
Definition order_id (r : t) : string := Delivered.order_id (delivered r).
Definition customer_id (r : t) : string :=
  Delivered.customer_id (delivered r).
Definition year_month (r : t) : string :=
  Delivered.year_month (delivered r).
Definition quarter (r : t) : string := Delivered.quarter (delivered r).
Definition price (r : t) : Q := Item.price (EnrichedItem.item (item r)).
Definition freight_value (r : t) : Q :=
  Item.freight_value (EnrichedItem.item (item r)).
Definition seller_id (r : t) : string :=
  Item.seller_id (EnrichedItem.item (item r)).
Definition product_category_name_english (r : t) : option string :=
  EnrichedItem.product_category_name_english (item r).
Definition customer_state (r : t) : option string :=
  option_map Customer.customer_state (customer r).
End MasterRow.

(** Batch export: the four merges, then the window filter. *)
Definition master_merged (tb : tables) : list MasterRow.t :=
  let with_items :=
    merge_inner
      (fun d e => Delivered.order_id d =? EnrichedItem.order_id e)
      (delivered (orders tb))
      (items_enriched (items tb) (products tb) (translations tb)) in
  let with_payment :=
    merge_left
      (fun de a =>
         Delivered.order_id (fst de) =? AggregatedPayment.order_id a)
      with_items (order_payments (payments tb)) in
  let with_customer :=
    merge_left
      (fun dea c =>
         Delivered.customer_id (fst (fst dea)) =? Customer.customer_id c)
      with_payment (customers tb) in
  let with_seller :=
    merge_left
      (fun deac s =>
         Item.seller_id (EnrichedItem.item (snd (fst (fst deac))))
         =? Seller.seller_id s)
      with_customer (sellers tb) in
  map (fun row : (((Delivered.t * EnrichedItem.t)
                   * option AggregatedPayment.t)
                  * option Customer.t) * option Seller.t =>
         {| MasterRow.delivered := fst (fst (fst (fst row)));
            MasterRow.item := snd (fst (fst (fst row)));
            MasterRow.payment := snd (fst (fst row));
            MasterRow.customer := snd (fst row);
            MasterRow.seller := snd row |})
      with_seller.

Definition master (tb : tables) : list MasterRow.t :=
  filter (fun r => in_window (MasterRow.year_month r)) (master_merged tb).

(** Interactive view: delivered orders, [items_e] and the customer state. *)
Module AppMasterRow.
Record t : Type := {
  delivered : Delivered.t;
  item : AppItem.t;
  customer : option Customer.t
}.
Definition order_id (r : t) : string := Delivered.order_id (delivered r).
Definition year_month (r : t) : string :=
  Delivered.year_month (delivered r).
Definition quarter (r : t) : string := Delivered.quarter (delivered r).
Definition category (r : t) : option string := AppItem.category (item r).
End AppMasterRow.

Definition app_master (tb : tables) : list AppMasterRow.t :=
  filter (fun r => in_window (AppMasterRow.year_month r))
    (map (fun row : (Delivered.t * AppItem.t) * option Customer.t =>
            {| AppMasterRow.delivered := fst (fst row);
               AppMasterRow.item := snd (fst row);
               AppMasterRow.customer := snd row |})
       (merge_left
          (fun de c =>
             Delivered.customer_id (fst de) =? Customer.customer_id c)
          (merge_inner
             (fun d e => Delivered.order_id d =? AppItem.order_id e)
             (delivered (orders tb))
             (items_e (items tb) (products tb) (translations tb)))
          (customers tb))).

(** ** Metric engine: scalar KPIs *)

(** [payments.merge(delivered[['order_id']], on='order_id')] *)
Definition pay_merged (tb : tables) : list Payment.t :=
  map fst
    (merge_inner (fun p d => Payment.order_id p =? Delivered.order_id d)
       (payments tb) (delivered (orders tb))).

Definition total_revenue (tb : tables) : Q :=
  agg_sum (map Payment.payment_value (pay_merged tb)).

(** [delivered.shape[0]] *)
Definition total_orders (tb : tables) : nat :=
  List.length (delivered (orders tb)).

(** Batch export:
    [total_revenue / total_orders if total_orders else 0]. *)
Definition avg_order_value (tb : tables) : float64 :=
  if Nat.eqb (total_orders tb) 0 then Num 0
  else truediv (total_revenue tb) (inject_Z (Z.of_nat (total_orders tb))).

(** Interactive view, the "Avg Order Value" card:
    [total_rev / delivered.shape[0]]. *)
Definition app_avg_order_value (tb : tables) : float64 :=
  truediv (total_revenue tb) (inject_Z (Z.of_nat (total_orders tb))).

(** ** Metric engine: grouped aggregates *)

Module Monthly.
Record t : Type := {
  year_month : string;
  revenue : Q;
  freight : Q;
  orders : nat;
  total : Q
}.
End Monthly.

(** The [total] column is added row by row after the sort. *)
Definition monthly (m : list MasterRow.t) : list Monthly.t :=
  sort_values (fun a b => Monthly.year_month a <=? Monthly.year_month b)
    (map (fun g : string * list MasterRow.t =>
            let revenue := agg_sum (map MasterRow.price (snd g)) in
            let freight := agg_sum (map MasterRow.freight_value (snd g)) in
            {| Monthly.year_month := fst g;
               Monthly.revenue := revenue;
               Monthly.freight := freight;
               Monthly.orders := agg_nunique (map MasterRow.order_id (snd g));
               Monthly.total := (revenue + freight)%Q |})
       (groupby (fun r => Some (MasterRow.year_month r)) m)).

Module Category.
Record t : Type := {
  product_category_name_english : string;
  revenue : Q;
  orders : nat;
  avg_price : Q
}.
End Category.

(** Descending order on a revenue column. *)
Definition revenue_desc {A : Type} (revenue : A -> Q) (a b : A) : bool :=
  Qle_bool (revenue b) (revenue a).

Definition categories (m : list MasterRow.t) : list Category.t :=
  head 15
    (sort_values (revenue_desc Category.revenue)
       (map (fun g : string * list MasterRow.t =>
               {| Category.product_category_name_english := fst g;
                  Category.revenue := agg_sum (map MasterRow.price (snd g));
                  Category.orders :=
                    agg_nunique (map MasterRow.order_id (snd g));
                  Category.avg_price :=
                    agg_mean (map MasterRow.price (snd g)) |})
          (groupby MasterRow.product_category_name_english m))).

Module State.
Record t : Type := {
  customer_state : string;
  revenue : Q;
  orders : nat;
  customers : nat
}.
End State.

Definition states (m : list MasterRow.t) : list State.t :=
  sort_values (revenue_desc State.revenue)
    (map (fun g : string * list MasterRow.t =>
            {| State.customer_state := fst g;
               State.revenue := agg_sum (map MasterRow.price (snd g));
               State.orders := agg_nunique (map MasterRow.order_id (snd g));
               State.customers :=
                 agg_nunique (map MasterRow.customer_id (snd g)) |})
       (groupby MasterRow.customer_state m)).

Module Quarterly.
Record t : Type := {
  quarter : string;
  revenue : Q;
  orders : nat;
  growth_pct : PrimFloat.float
}.
End Quarterly.

(** The quarterly groups, ascending by quarter, before the growth column
    is attached ([growth_pct] still NaN). *)
Definition quarterly_revenue (m : list MasterRow.t) : list Quarterly.t :=
  sort_values (fun a b => Quarterly.quarter a <=? Quarterly.quarter b)
    (map (fun g : string * list MasterRow.t =>
            {| Quarterly.quarter := fst g;
               Quarterly.revenue := agg_sum (map MasterRow.price (snd g));
               Quarterly.orders :=
                 agg_nunique (map MasterRow.order_id (snd g));
               Quarterly.growth_pct := PrimFloat.nan |})
       (groupby (fun r => Some (MasterRow.quarter r)) m)).


(** [(quarterly['revenue'].pct_change() * 100).round(1)], in float64. *)
Definition growth_column (revenues : list Q) : list PrimFloat.float :=
  map (fun g => Float64.np_round 1 (PrimFloat.mul g (Float64.of_Z 100)))
    (Float64.pct_change (map Float64.of_Q revenues)).

Definition quarterly (m : list MasterRow.t) : list Quarterly.t :=
  let q := quarterly_revenue m in
  map (fun rg : Quarterly.t * PrimFloat.float =>
         {| Quarterly.quarter := Quarterly.quarter (fst rg);
            Quarterly.revenue := Quarterly.revenue (fst rg);
            Quarterly.orders := Quarterly.orders (fst rg);
            Quarterly.growth_pct := snd rg |})
    (combine q (growth_column (map Quarterly.revenue q))).

Module Installment.
Record t : Type := {
  payment_installments : Z;
  count : nat;
  total : Q
}.
End Installment.

(** [pay_merged[pay_merged['payment_type'] == 'credit_card']] *)
Definition credit_card_payments (tb : tables) : list Payment.t :=
  filter (fun p => Payment.payment_type p =? "credit_card") (pay_merged tb).

(** The credit-card payments of delivered orders, one row per instalment
    count, as both entry points group them. *)
Definition installment_groups (tb : tables) : list Installment.t :=
  map (fun g : Z * list Payment.t =>
         {| Installment.payment_installments := fst g;
            Installment.count := agg_count (map Payment.order_id (snd g));
            Installment.total :=
              agg_sum (map Payment.payment_value (snd g)) |})
    (groupby (fun p => Some (Payment.payment_installments p))
       (credit_card_payments tb)).

(** Batch export: [.sort_values('payment_installments').head(12)]. *)
Definition installments (tb : tables) : list Installment.t :=
  head 12
    (sort_values
       (fun a b => (Installment.payment_installments a
                    <=? Installment.payment_installments b)%Z)
       (installment_groups tb)).

(** Interactive view: [inst[inst['payment_installments'].between(1, 10)]]. *)
Definition inst (tb : tables) : list Installment.t :=
  filter (fun r => ((1 <=? Installment.payment_installments r)
                    && (Installment.payment_installments r <=? 10))%Z)
    (installment_groups tb).

(** ** Export (batch) *)

(** [round(x, 2)] and [DataFrame.round(2)] on a float64 cell. *)
Definition round2 (x : Q) : PrimFloat.float :=
  Float64.np_round 2 (Float64.of_Q x).

(** A cell of a JSON record: float columns are rounded by
    [DataFrame.round], string and integer columns pass unchanged. *)
Inductive json_value : Type :=
| JString (s : string)
| JInt (n : Z)
| JFloat (x : PrimFloat.float).

(** One row of [to_dict('records')]: the cells under their column names,
    in column order. *)
Definition json_record : Type := list (string * json_value).

Record kpis_t : Type := {
  kpi_total_revenue : PrimFloat.float;
  kpi_total_orders : nat;
  kpi_avg_order_value : PrimFloat.float;
  kpi_total_customers : nat;
  kpi_total_sellers : nat
}.

(** The document written to [output/dashboard_data.json]; the keys computed
    from reviews and delivery dates and the metadata are left out. *)
Record dashboard_json : Type := {
  json_kpis : kpis_t;
  json_monthly_revenue : list json_record;
  json_top_categories : list json_record;
  json_installments : list json_record;
  json_states : list json_record;
  json_quarterly : list json_record
}.

Definition kpis (tb : tables) : kpis_t :=
  {| kpi_total_revenue := round2 (total_revenue tb);
     kpi_total_orders := total_orders tb;
     kpi_avg_order_value :=
       Float64.np_round 2 (to_float (avg_order_value tb));
     kpi_total_customers :=
       agg_nunique (map Delivered.customer_id (delivered (orders tb)));
     kpi_total_sellers :=
       agg_nunique (map MasterRow.seller_id (master tb)) |}.

Definition JCount (n : nat) : json_value := JInt (Z.of_nat n).

Definition dashboard (tb : tables) : dashboard_json :=
  let m := master tb in
  {| json_kpis := kpis tb;
     json_monthly_revenue :=
       map (fun r =>
              [("year_month", JString (Monthly.year_month r));
               ("revenue", JFloat (round2 (Monthly.revenue r)));
               ("freight", JFloat (round2 (Monthly.freight r)));
               ("orders", JCount (Monthly.orders r));
               ("total", JFloat (round2 (Monthly.total r)))])
           (monthly m);
     json_top_categories :=
       map (fun r =>
              [("product_category_name_english",
                JString (Category.product_category_name_english r));
               ("revenue", JFloat (round2 (Category.revenue r)));
               ("orders", JCount (Category.orders r));
               ("avg_price", JFloat (round2 (Category.avg_price r)))])
           (categories m);
     json_installments :=
       map (fun r =>
              [("payment_installments",
                JInt (Installment.payment_installments r));
               ("count", JCount (Installment.count r));
               ("total", JFloat (round2 (Installment.total r)))])
           (installments tb);
     json_states :=
       map (fun r =>
              [("customer_state", JString (State.customer_state r));
               ("revenue", JFloat (round2 (State.revenue r)));
               ("orders", JCount (State.orders r));
               ("customers", JCount (State.customers r))])
           (states m);
     json_quarterly :=
       map (fun r =>
              [("quarter", JString (Quarterly.quarter r));
               ("revenue", JFloat (round2 (Quarterly.revenue r)));
               ("orders", JCount (Quarterly.orders r));
               ("growth_pct",
                JFloat (Float64.np_round 2 (Quarterly.growth_pct r)))])
           (quarterly m) |}.

(** ** Loader *)

(** The data directory: for each expected file its parsed rows, or [None]
    when the file is absent. *)
Record data_dir : Type := {
  olist_orders_dataset : option (list Order.t);
  olist_order_items_dataset : option (list Item.t);
  olist_order_payments_dataset : option (list Payment.t);
  olist_order_reviews_dataset : option (list Review.t);
  olist_customers_dataset : option (list Customer.t);
  olist_products_dataset : option (list Product.t);
  olist_sellers_dataset : option (list Seller.t);
  product_category_name_translation : option (list Translation.t)
}.

(** The only exception the modelled statements raise; [filename] is the
    attribute Python sets on it, which its message prints. *)
Inductive exn : Type :=
  | FileNotFoundError (filename : string).

Definition result (A : Type) : Type := (exn + A)%type.

Definition ret {A : Type} (a : A) : result A := inr a.

Definition bind {A B : Type} (c : result A) (k : A -> result B) : result B :=
  match c with
  | inl e => inl e
  | inr a => k a
  end.

Notation "x <- c ;; k" := (bind c (fun x => k))
  (at level 61, c at next level, right associativity).

Definition read_csv {A : Type} (path : string) (file : option (list A))
  : result (list A) :=
  match file with
  | Some rows => ret rows
  | None => inl (FileNotFoundError path)
  end.

Definition DATA_DIR : string := "data/".

(** The eight [pd.read_csv] calls, in the order both entry points make
    them. *)
Definition load_tables (fs : data_dir) : result tables :=
  orders <- read_csv (DATA_DIR ++ "olist_orders_dataset.csv")
              (olist_orders_dataset fs) ;;
  items <- read_csv (DATA_DIR ++ "olist_order_items_dataset.csv")
             (olist_order_items_dataset fs) ;;
  payments <- read_csv (DATA_DIR ++ "olist_order_payments_dataset.csv")
                (olist_order_payments_dataset fs) ;;
  reviews <- read_csv (DATA_DIR ++ "olist_order_reviews_dataset.csv")
               (olist_order_reviews_dataset fs) ;;
  customers <- read_csv (DATA_DIR ++ "olist_customers_dataset.csv")
                 (olist_customers_dataset fs) ;;
  products <- read_csv (DATA_DIR ++ "olist_products_dataset.csv")
                (olist_products_dataset fs) ;;
  sellers <- read_csv (DATA_DIR ++ "olist_sellers_dataset.csv")
               (olist_sellers_dataset fs) ;;
  translations <- read_csv
                    (DATA_DIR ++ "product_category_name_translation.csv")
                    (product_category_name_translation fs) ;;
  ret {| orders := orders; items := items; payments := payments;
         reviews := reviews; customers := customers; products := products;
         sellers := sellers; translations := translations |}.

(** One run of the batch script: the exception it dies of, if any, and the
    content of [output/dashboard_data.json] if the script wrote it.  The
    write is the last statement of the script. *)
Record run : Type := {
  raised : option exn;
  output_dashboard_data_json : option dashboard_json
}.

Definition run_pipeline (fs : data_dir) : run :=
  match load_tables fs with
  | inl e => {| raised := Some e; output_dashboard_data_json := None |}
  | inr tb =>
      {| raised := None; output_dashboard_data_json := Some (dashboard tb) |}
  end.

(** Interactive view: what [load_data] returns when the files are there.
    [del_data] is [delivered] without the rows that miss one of the two
    delivery dates; its derived columns are not modelled. *)
Record app_data : Type := {
  app_data_master : list AppMasterRow.t;
  app_data_delivered : list Delivered.t;
  app_data_payments : list Payment.t;
  app_data_reviews : list Review.t;
  app_data_del_data : list Delivered.t
}.

Definition st_error_message : string :=
  "Data files not found. Please ensure the CSV files are in the `data/` folder.".

(** [load_data]: the messages passed to [st.error], and the five frames or
    [None] (the tuple of five [None]). *)
Definition load_data (fs : data_dir) : list string * option app_data :=
  match load_tables fs with
  | inl (FileNotFoundError _) => ([st_error_message], None)
  | inr tb =>
      let d := delivered (orders tb) in
      ([],
       Some {| app_data_master := app_master tb;
               app_data_delivered := d;
               app_data_payments := payments tb;
               app_data_reviews := reviews tb;
               app_data_del_data :=
                 filter
                   (fun r =>
                      match Order.order_delivered_customer_date
                              (Delivered.order r),
                            Order.order_estimated_delivery_date
                              (Delivered.order r) with
                      | Some _, Some _ => true
                      | _, _ => false
                      end) d |})
  end.

(** The script after [load_data]: [st.stop()] when [master is None]. *)
Inductive app_run : Type :=
  | Stopped (errors : list string)
  | Rendered (d : app_data).

Definition run_app (fs : data_dir) : app_run :=
  match load_data fs with
  | (errors, None) => Stopped errors
  | (_, Some d) => Rendered d
  end.

(** [needle in haystack] *)
Fixpoint contains (needle haystack : string) : bool :=
  String.prefix needle haystack
  || match haystack with
     | EmptyString => false
     | String _ rest => contains needle rest
     end.

(** Whether the key of a row is one of [keys]. *)
Definition key_among {R K : Type} `{KeyType K} (key : R -> option K)
  (keys : list K) (r : R) : bool :=
  match key r with
  | Some k => existsb (keqb k) keys
  | None => false
  end.

(** ** Metric engine: reviews, payment mix and delivery *)

(** [df.empty] *)
Definition is_empty {A : Type} (l : list A) : bool :=
  match l with
  | [] => true
  | _ :: _ => false
  end.

(** A boolean column as numbers, as [mean] reads it. *)
Definition bool_Q (b : bool) : Q := if b then 1 else 0.

(** [reviews.merge(delivered[['order_id']], on='order_id')] *)
Definition review_data (tb : tables) : list Review.t :=
  map fst
    (merge_inner (fun r d => Review.order_id r =? Delivered.order_id d)
       (reviews tb) (delivered (orders tb))).

(** [review_data['review_score'].mean() if not review_data.empty else 0] *)
Definition avg_review (tb : tables) : Q :=
  if is_empty (review_data tb) then 0
  else agg_mean (map (fun r => inject_Z (Review.review_score r))
                   (review_data tb)).

(** [(review_data['review_score'] == 5).mean() * 100
     if not review_data.empty else 0] *)
Definition five_star_pct (tb : tables) : Q :=
  if is_empty (review_data tb) then 0
  else (agg_mean (map (fun r => bool_Q (Review.review_score r =? 5)%Z)
                    (review_data tb)) * 100)%Q.

(** Batch export: the share of the credit-card value, guarded by
    [if not pay_merged.empty else 0]. *)
Definition credit_card_share (tb : tables) : float64 :=
  if is_empty (pay_merged tb) then Num 0
  else fmul_pos
         (truediv
            (agg_sum (map Payment.payment_value (credit_card_payments tb)))
            (agg_sum (map Payment.payment_value (pay_merged tb))))
         100.

Module PaymentType.
Record t : Type := {
  payment_type : string;
  total_value : Q;
  order_count : nat
}.
End PaymentType.

(** Payment type distribution, descending by value. *)
Definition payment_dist (tb : tables) : list PaymentType.t :=
  sort_values (revenue_desc PaymentType.total_value)
    (map (fun g : string * list Payment.t =>
            {| PaymentType.payment_type := fst g;
               PaymentType.total_value :=
                 agg_sum (map Payment.payment_value (snd g));
               PaymentType.order_count :=
                 agg_nunique (map Payment.order_id (snd g)) |})
       (groupby (fun p => Some (Payment.payment_type p)) (pay_merged tb))).

(** Timestamps compare in time order, field by field. *)
Fixpoint lex_leb (a b : list nat) : bool :=
  match a, b with
  | [], _ => true
  | _ :: _, [] => false
  | x :: a', y :: b' =>
      if Nat.ltb x y then true
      else if Nat.ltb y x then false
      else lex_leb a' b'
  end.

Definition ts_fields (t : timestamp) : list nat :=
  [year t; month t; day t; hour t; minute t; second t].

Definition ts_leb (a b : timestamp) : bool :=
  lex_leb (ts_fields a) (ts_fields b).

(** Batch export: [del_data], the delivered orders that have both delivery
    dates, with the column [on_time]; the column [delivery_days] is left
    out. *)
Module Delivery.
Record t : Type := {
  delivered : Delivered.t;
  order_delivered_customer_date : timestamp;
  order_estimated_delivery_date : timestamp;
  on_time : bool
}.
End Delivery.

Definition del_data (tb : tables) : list Delivery.t :=
  flat_map
    (fun d =>
       match Order.order_delivered_customer_date (Delivered.order d),
             Order.order_estimated_delivery_date (Delivered.order d) with
       | Some a, Some e =>
           [{| Delivery.delivered := d;
               Delivery.order_delivered_customer_date := a;
               Delivery.order_estimated_delivery_date := e;
               Delivery.on_time := ts_leb a e |}]
       | _, _ => []
       end)
    (delivered (orders tb)).

(** [del_data['on_time'].mean() * 100 if not del_data.empty else 0] *)
Definition on_time_pct (tb : tables) : Q :=
  if is_empty (del_data tb) then 0
  else (agg_mean (map (fun r => bool_Q (Delivery.on_time r)) (del_data tb))
        * 100)%Q.

(** ** Interactive view: quarterly growth *)

Definition app_price (r : AppMasterRow.t) : Q :=
  Item.price (EnrichedItem.item (AppItem.merged (AppMasterRow.item r))).

Module AppQuarterly.
Record t : Type := {
  quarter : string;
  revenue : Q;
  growth : PrimFloat.float
}.
End AppQuarterly.

(** The quarterly groups, ascending, before the filter. *)
Definition app_quarterly_sorted (tb : tables) : list AppQuarterly.t :=
  sort_values (fun a b => AppQuarterly.quarter a <=? AppQuarterly.quarter b)
    (map (fun g : string * list AppMasterRow.t =>
            {| AppQuarterly.quarter := fst g;
               AppQuarterly.revenue := agg_sum (map app_price (snd g));
               AppQuarterly.growth := PrimFloat.nan |})
       (groupby (fun r => Some (AppMasterRow.quarter r)) (app_master tb))).

(** [quarterly[quarterly['quarter'] >= '2017Q1']], then
    [growth = revenue.pct_change() * 100] in float64, not rounded. *)
Definition app_quarterly (tb : tables) : list AppQuarterly.t :=
  let q := filter (fun g => "2017Q1" <=? AppQuarterly.quarter g)
             (app_quarterly_sorted tb) in
  map (fun rg : AppQuarterly.t * PrimFloat.float =>
         {| AppQuarterly.quarter := AppQuarterly.quarter (fst rg);
            AppQuarterly.revenue := AppQuarterly.revenue (fst rg);
            AppQuarterly.growth := snd rg |})
    (combine q
       (map (fun g => PrimFloat.mul g (Float64.of_Z 100))
          (Float64.pct_change
             (map Float64.of_Q (map AppQuarterly.revenue q))))).

(** What both master tables carry: the delivered order, the item, the
    category and the customer.  The category of the interactive view is
    the English category with "other" for a missing cell; the batch row is
    read the same way. *)
Definition master_core (r : MasterRow.t)
  : Delivered.t * Item.t * option string * option Customer.t :=
  (MasterRow.delivered r, EnrichedItem.item (MasterRow.item r),
   fillna "other" (MasterRow.product_category_name_english r),
   MasterRow.customer r).

Definition app_master_core (r : AppMasterRow.t)
  : Delivered.t * Item.t * option string * option Customer.t :=
  (AppMasterRow.delivered r,
   EnrichedItem.item (AppItem.merged (AppMasterRow.item r)),
   AppMasterRow.category r, AppMasterRow.customer r).

(** ** Metric engine: review histogram and category trend *)

(** [review_data['review_score'].value_counts().sort_index()]: each score
    that occurs with its number of reviews, ascending by score. *)
Definition review_dist (tb : tables) : list (Z * nat) :=
  map (fun g : Z * list Review.t => (fst g, List.length (snd g)))
    (groupby (fun r => Some (Review.review_score r)) (review_data tb)).

(** Two key columns: pandas orders the groups by the first key, then by
    the second. *)
#[export, refine] Instance pair_key {A B : Type} `{KeyType A} `{KeyType B}
  : KeyType (A * B) := {
  keqb x y := keqb (fst x) (fst y) && keqb (snd x) (snd y);
  kleb x y :=
    if keqb (fst x) (fst y) then kleb (snd x) (snd y)
    else kleb (fst x) (fst y)
}.
Proof.
  - intros [a b] [c d]. simpl. rewrite andb_true_iff, !keqb_eq.
    split; [intros [-> ->]; reflexivity | intros E; inversion E; auto].
  - intros [a b] [c d]. simpl.
    destruct (keqb a c) eqn:E.
    + apply keqb_eq in E. subst c.
      assert (Er : keqb a a = true) by now apply keqb_eq.
      rewrite Er. apply kleb_total.
    + destruct (keqb c a) eqn:E'; [|apply kleb_total].
      apply keqb_eq in E'. subst c.
      assert (Er : keqb a a = true) by now apply keqb_eq.
      congruence.
  - intros [a b] [c d]. simpl.
    destruct (keqb a c) eqn:E.
    + apply keqb_eq in E. subst c.
      assert (Er : keqb a a = true) by now apply keqb_eq.
      rewrite Er. intros H1 H2. f_equal. now apply kleb_antisym.
    + destruct (keqb c a) eqn:E'.
      * apply keqb_eq in E'. subst c.
        assert (Er : keqb a a = true) by now apply keqb_eq.
        congruence.
      * intros H1 H2. pose proof (kleb_antisym a c H1 H2) as Eac.
        subst c. assert (Er : keqb a a = true) by now apply keqb_eq.
        congruence.
Defined.

(** [categories.head(5)['product_category_name_english'].tolist()] *)
Definition top5_cats (m : list MasterRow.t) : list string :=
  map Category.product_category_name_english (head 5 (categories m)).

(** [Series.isin(values)]; a missing cell is in no list. *)
Definition isin (values : list string) (c : option string) : bool :=
  match c with
  | Some s => existsb (String.eqb s) values
  | None => false
  end.

Module CategoryMonth.
Record t : Type := {
  year_month : string;
  product_category_name_english : string;
  revenue : Q
}.
End CategoryMonth.

(** Category monthly trend of the five top categories. *)
Definition cat_monthly (m : list MasterRow.t) : list CategoryMonth.t :=
  sort_values
    (fun a b => CategoryMonth.year_month a <=? CategoryMonth.year_month b)
    (map (fun g : (string * string) * list MasterRow.t =>
            {| CategoryMonth.year_month := fst (fst g);
               CategoryMonth.product_category_name_english := snd (fst g);
               CategoryMonth.revenue :=
                 agg_sum (map MasterRow.price (snd g)) |})
       (groupby
          (fun r =>
             match MasterRow.product_category_name_english r with
             | Some c => Some (MasterRow.year_month r, c)
             | None => None
             end)
          (filter
             (fun r => isin (top5_cats m)
                         (MasterRow.product_category_name_english r))
             m))).

(** ** Interactive view: top revenue categories *)

(** [Series.tail(n)] *)
Definition tail {A : Type} (n : nat) (l : list A) : list A :=
  skipn (List.length l - n) l.

(** [master.groupby('category')['price'].sum()
     .sort_values(ascending=True).tail(10)] *)
Definition app_cats (tb : tables) : list (string * Q) :=
  tail 10
    (sort_values (fun a b : string * Q => Qle_bool (snd a) (snd b))
       (map (fun g : string * list AppMasterRow.t =>
               (fst g, agg_sum (map app_price (snd g))))
          (groupby AppMasterRow.category (app_master tb)))).

(** ** The specification's wording, for comparison *)

(** AggregatedPayment, row by row over the Payment table: the sum of the
    values of the rows of order [o], the payment type of the first such
    row, the largest instalment count among them. *)
Fixpoint spec_payment_sum (o : string) (ps : list Payment.t) : Q :=
  match ps with
  | [] => 0
  | p :: t =>
      if Payment.order_id p =? o
      then (Payment.payment_value p + spec_payment_sum o t)%Q
      else spec_payment_sum o t
  end.

Fixpoint spec_first_payment_type (o : string) (ps : list Payment.t)
  : option string :=
  match ps with
  | [] => None
  | p :: t =>
      if Payment.order_id p =? o then Some (Payment.payment_type p)
      else spec_first_payment_type o t
  end.

Fixpoint spec_max_installments (o : string) (ps : list Payment.t)
  : option Z :=
  match ps with
  | [] => None
  | p :: t =>
      if Payment.order_id p =? o
      then Some (match spec_max_installments o t with
                 | Some m => Z.max (Payment.payment_installments p) m
                 | None => Payment.payment_installments p
                 end)
      else spec_max_installments o t
  end.


(** A timestamp that [pd.to_datetime] can return: a year within the range
    of nanosecond timestamps and a calendar month. *)
Definition valid_timestamp (t : timestamp) : Prop :=
  (1677 <= year t <= 2262)%nat /\ (1 <= month t <= 12)%nat.

(** The quarter label as the specification writes it, [YYYY-Q#]. *)
Definition spec_quarter (t : timestamp) : string :=
  zfill 4 (year t) ++ "-Q" ++ zfill 1 (quarter_of_month (month t)).

(** The expected files in load order, each with whether it is there, and
    the first one that is absent. *)
Definition present {A : Type} (file : option A) : bool :=
  match file with Some _ => true | None => false end.

Definition expected_files (fs : data_dir) : list (string * bool) :=
  [((DATA_DIR ++ "olist_orders_dataset.csv")%string,
    present (olist_orders_dataset fs));
   ((DATA_DIR ++ "olist_order_items_dataset.csv")%string,
    present (olist_order_items_dataset fs));
   ((DATA_DIR ++ "olist_order_payments_dataset.csv")%string,
    present (olist_order_payments_dataset fs));
   ((DATA_DIR ++ "olist_order_reviews_dataset.csv")%string,
    present (olist_order_reviews_dataset fs));
   ((DATA_DIR ++ "olist_customers_dataset.csv")%string,
    present (olist_customers_dataset fs));
   ((DATA_DIR ++ "olist_products_dataset.csv")%string,
    present (olist_products_dataset fs));
   ((DATA_DIR ++ "olist_sellers_dataset.csv")%string,
    present (olist_sellers_dataset fs));
   ((DATA_DIR ++ "product_category_name_translation.csv")%string,
    present (product_category_name_translation fs))].

Definition first_missing (fs : data_dir) : option string :=
  option_map fst (find (fun pf => negb (snd pf)) (expected_files fs)).

(** The rows of order [o] within a group of [order_payments]. *)
Definition of_order (o : string) (p : Payment.t) : bool :=
  has_key (fun p => Some (Payment.order_id p)) o p.

(** ** Sample rows *)

Definition pay (o ty : string) (n : Z) (v : Q) : Payment.t :=
  {| Payment.order_id := o; Payment.payment_type := ty;
     Payment.payment_installments := n; Payment.payment_value := v |}.

Definition ts (y m d : nat) : timestamp :=
  {| year := y; month := m; day := d; hour := 10; minute := 56; second := 33 |}.

Definition ord (o c st : string) (t : option timestamp) : Order.t :=
  {| Order.order_id := o; Order.customer_id := c; Order.order_status := st;
     Order.order_purchase_timestamp := t;
     Order.order_delivered_customer_date := None;
     Order.order_estimated_delivery_date := None |}.

Definition itm (o p s : string) (v f : Q) : Item.t :=
  {| Item.order_id := o; Item.product_id := p; Item.seller_id := s;
     Item.price := v; Item.freight_value := f |}.

(** Four orders: a delivered one inside the window with two items and two
    payments, a delivered one whose purchase timestamp did not parse, a
    shipped one, and a delivered one before the window.  Product p2 has no
    category and the category of p3 has no translation. *)
Definition sample_tables : tables :=
  {| orders :=
       [ord "o1" "c1" "delivered" (Some (ts 2017 2 3));
        ord "o2" "c2" "delivered" None;
        ord "o3" "c1" "shipped" (Some (ts 2017 5 9));
        ord "o4" "c3" "delivered" (Some (ts 2016 12 24))];
     items :=
       [itm "o1" "p1" "s1" (30 # 1) (5 # 1);
        itm "o1" "p2" "s2" (12 # 1) (3 # 1);
        itm "o2" "p3" "s1" (8 # 1) (2 # 1);
        itm "o4" "p1" "s1" (30 # 1) (5 # 1)];
     payments :=
       [pay "o1" "credit_card" 3 (40 # 1); pay "o1" "voucher" 1 (10 # 1);
        pay "o2" "boleto" 1 (10 # 1); pay "o4" "credit_card" 24 (35 # 1)];
     reviews := [];
     customers :=
       [{| Customer.customer_id := "c1"; Customer.customer_state := "SP";
           Customer.customer_city := "sao paulo" |}];
     products :=
       [{| Product.product_id := "p1";
           Product.product_category_name := Some "beleza_saude" |};
        {| Product.product_id := "p2";
           Product.product_category_name := None |};
        {| Product.product_id := "p3";
           Product.product_category_name := Some "pc_gamer" |}];
     sellers :=
       [{| Seller.seller_id := "s1"; Seller.seller_state := "RJ";
           Seller.seller_city := "niteroi" |}];
     translations :=
       [{| Translation.product_category_name := "beleza_saude";
           Translation.product_category_name_english := "health_beauty" |}]
  |}.

(** One order that was shipped but not delivered, and its payment. *)
Definition no_delivered_tables : tables :=
  {| orders := [ord "o1" "c1" "shipped" (Some (ts 2017 5 9))];
     items := [itm "o1" "p1" "s1" (30 # 1) (5 # 1)];
     payments := [pay "o1" "credit_card" 3 (35 # 1)];
     reviews := []; customers := []; products := []; sellers := [];
     translations := [] |}.

(** Delivered orders in four consecutive quarters, with item prices 30, 40,
    0 and 5. *)
Definition growth_tables : tables :=
  {| orders :=
       [ord "o1" "c1" "delivered" (Some (ts 2017 2 3));
        ord "o2" "c2" "delivered" (Some (ts 2017 5 9));
        ord "o3" "c3" "delivered" (Some (ts 2017 9 30));
        ord "o4" "c4" "delivered" (Some (ts 2017 10 1))];
     items :=
       [itm "o4" "p1" "s1" (5 # 1) (1 # 1);
        itm "o2" "p1" "s1" (40 # 1) (5 # 1);
        itm "o1" "p1" "s1" (30 # 1) (5 # 1);
        itm "o3" "p1" "s1" (0 # 1) (5 # 1)];
     payments := []; reviews := []; customers := []; products := [];
     sellers := []; translations := [] |}.

(** A data directory with the sample tables, and the same directory
    without the sellers file. *)
Definition sample_dir : data_dir :=
  {| olist_orders_dataset := Some (orders sample_tables);
     olist_order_items_dataset := Some (items sample_tables);
     olist_order_payments_dataset := Some (payments sample_tables);
     olist_order_reviews_dataset := Some (reviews sample_tables);
     olist_customers_dataset := Some (customers sample_tables);
     olist_products_dataset := Some (products sample_tables);
     olist_sellers_dataset := Some (sellers sample_tables);
     product_category_name_translation := Some (translations sample_tables) |}.

Definition no_sellers_dir : data_dir :=
  {| olist_orders_dataset := Some (orders sample_tables);
     olist_order_items_dataset := Some (items sample_tables);
     olist_order_payments_dataset := Some (payments sample_tables);
     olist_order_reviews_dataset := Some (reviews sample_tables);
     olist_customers_dataset := Some (customers sample_tables);
     olist_products_dataset := Some (products sample_tables);
     olist_sellers_dataset := None;
     product_category_name_translation := Some (translations sample_tables) |}.

(** Two delivered orders with reviews, and a review of an order that was
    not delivered. *)
Definition review_tables : tables :=
  {| orders :=
       [ord "o1" "c1" "delivered" (Some (ts 2017 2 3));
        ord "o2" "c2" "delivered" (Some (ts 2017 5 9));
        ord "o3" "c3" "canceled" (Some (ts 2017 6 1))];
     items := []; payments := [];
     reviews :=
       [{| Review.order_id := "o1"; Review.review_score := 5%Z |};
        {| Review.order_id := "o2"; Review.review_score := 4%Z |};
        {| Review.order_id := "o3"; Review.review_score := 1%Z |}];
     customers := []; products := []; sellers := []; translations := [] |}.

(** A delivered order whose only payment is a voucher of value 0. *)
Definition zero_value_tables : tables :=
  {| orders := [ord "o1" "c1" "delivered" (Some (ts 2017 2 3))];
     items := []; payments := [pay "o1" "voucher" 1 (0 # 1)];
     reviews := []; customers := []; products := []; sellers := [];
     translations := [] |}.

(** Two delivered orders paid by credit card in 3 and in 10 instalments,
    one of them partly by voucher. *)
Definition card_tables : tables :=
  {| orders :=
       [ord "o1" "c1" "delivered" (Some (ts 2017 2 3));
        ord "o2" "c2" "delivered" (Some (ts 2018 5 9))];
     items := [];
     payments :=
       [pay "o1" "credit_card" 3 (40 # 1); pay "o1" "voucher" 1 (10 # 1);
        pay "o2" "credit_card" 10 (99 # 1)];
     reviews := []; customers := []; products := []; sellers := [];
     translations := [] |}.


(** * Properties *)

(** ** Sorting, distinct values and groups *)

Section SortFacts.
Context {R : Type} (le : R -> R -> bool).

Lemma insert_sorted_perm (x : R) (l : list R) :
  Permutation (x :: l) (insert_sorted le x l).
Proof.
  induction l as [|y t IH]; simpl; [reflexivity|].
  destruct (le x y); [reflexivity|].
  rewrite perm_swap. now constructor.
Qed.

Lemma sort_values_perm (l : list R) : Permutation l (sort_values le l).
Proof.
  induction l as [|x t IH]; simpl; [constructor|].
  rewrite <- insert_sorted_perm. now constructor.
Qed.

Lemma sort_values_In (l : list R) (x : R) :
  In x (sort_values le l) <-> In x l.
Proof.
  split; apply Permutation_in;
    [symmetry|]; apply sort_values_perm.
Qed.

Hypothesis le_total : forall a b, le a b = true \/ le b a = true.

Lemma insert_sorted_sorted (x : R) (l : list R) :
  Sorted (fun a b => le a b = true) l ->
  Sorted (fun a b => le a b = true) (insert_sorted le x l).
Proof.
  induction l as [|y t IH]; simpl; intros Hs.
  - repeat constructor.
  - destruct (le x y) eqn:E.
    + constructor; [assumption | now constructor].
    + inversion Hs as [|? ? Ht Hhd]; subst.
      constructor; [now apply IH|].
      assert (Hyx : le y x = true)
        by (destruct (le_total x y); congruence).
      destruct t as [|z t']; simpl.
      * now constructor.
      * destruct (le x z); constructor; [assumption|].
        now inversion Hhd.
Qed.

Lemma sort_values_sorted (l : list R) :
  Sorted (fun a b => le a b = true) (sort_values le l).
Proof.
  induction l as [|x t IH]; simpl; [constructor|].
  now apply insert_sorted_sorted.
Qed.

End SortFacts.

Section GroupFacts.
Context {R K : Type} `{KeyType K}.

Lemma existsb_keqb (x : K) (l : list K) :
  existsb (keqb x) l = true <-> In x l.
Proof.
  rewrite existsb_exists. split.
  - intros [y [Hy E]]. apply keqb_eq in E. now subst.
  - intros Hx. exists x. split; [assumption | now apply keqb_eq].
Qed.

Lemma unique_In (l : list K) (x : K) : In x (unique l) <-> In x l.
Proof.
  induction l as [|y t IH]; simpl; [tauto|].
  destruct (existsb (keqb y) t) eqn:E.
  - rewrite IH. split; [tauto|]. intros [->|Hx]; [|assumption].
    now apply existsb_keqb.
  - simpl. now rewrite IH.
Qed.

Lemma unique_NoDup (l : list K) : NoDup (unique l).
Proof.
  induction l as [|y t IH]; simpl; [constructor|].
  destruct (existsb (keqb y) t) eqn:E; [assumption|].
  constructor; [|assumption].
  rewrite unique_In, <- existsb_keqb. congruence.
Qed.

Lemma unique_length (l : list K) :
  (List.length (unique l) <= List.length l)%nat.
Proof.
  induction l as [|y t IH]; simpl; [lia|].
  destruct (existsb (keqb y) t); simpl; lia.
Qed.

Lemma dropna_In (l : list (option K)) (k : K) :
  In k (dropna l) <-> In (Some k) l.
Proof.
  unfold dropna. rewrite in_flat_map. split.
  - intros [[c|] [Hc Hk]]; simpl in Hk; [|contradiction].
    destruct Hk as [->|[]]. assumption.
  - intros Hk. exists (Some k). simpl. auto.
Qed.

Lemma has_key_true (key : R -> option K) (k : K) (r : R) :
  has_key key k r = true <-> key r = Some k.
Proof.
  unfold has_key. destruct (key r) as [k'|].
  - rewrite keqb_eq. split; congruence.
  - split; discriminate.
Qed.

(** The keys of the groups are the key values that occur, each once. *)
Lemma groupby_keys (key : R -> option K) (rows : list R) (k : K) :
  In k (map fst (groupby key rows)) <-> exists r, In r rows /\ key r = Some k.
Proof.
  unfold groupby. rewrite map_map. simpl. rewrite map_id.
  rewrite sort_values_In, unique_In, dropna_In, in_map_iff.
  split; intros [r Hr]; exists r; tauto.
Qed.

Lemma groupby_keys_NoDup (key : R -> option K) (rows : list R) :
  NoDup (map fst (groupby key rows)).
Proof.
  unfold groupby. rewrite map_map. simpl. rewrite map_id.
  eapply Permutation_NoDup; [apply sort_values_perm | apply unique_NoDup].
Qed.

Lemma groupby_keys_sorted (key : R -> option K) (rows : list R) :
  Sorted (fun a b => kleb a b = true) (map fst (groupby key rows)).
Proof.
  unfold groupby. rewrite map_map. simpl. rewrite map_id.
  apply sort_values_sorted, kleb_total.
Qed.

(** A group holds exactly the rows of its key, in input order. *)
Lemma groupby_group (key : R -> option K) (rows : list R) (g : K * list R) :
  In g (groupby key rows) -> snd g = filter (has_key key (fst g)) rows.
Proof.
  unfold groupby. rewrite in_map_iff. intros [k [<- _]]. reflexivity.
Qed.

Lemma groupby_In (key : R -> option K) (rows : list R) (k : K) :
  (exists r, In r rows /\ key r = Some k) ->
  In (k, filter (has_key key k) rows) (groupby key rows).
Proof.
  intros Hk. apply groupby_keys in Hk.
  unfold groupby in *. rewrite map_map in Hk. simpl in Hk.
  rewrite map_id in Hk. apply in_map_iff. now exists k.
Qed.

End GroupFacts.

(** ** Payments per order *)

Lemma group_sum_spec (o : string) (ps : list Payment.t) :
  (agg_sum (map Payment.payment_value (filter (of_order o) ps))
   == spec_payment_sum o ps)%Q.
Proof.
  induction ps as [|p t IH]; simpl; [reflexivity|].
  unfold of_order, has_key at 1. simpl.
  destruct (Payment.order_id p =? o); simpl.
  - fold (of_order o). now rewrite IH.
  - exact IH.
Qed.

Lemma group_first_spec (o : string) (ps : list Payment.t) :
  agg_first (map Payment.payment_type (filter (of_order o) ps))
  = spec_first_payment_type o ps.
Proof.
  induction ps as [|p t IH]; simpl; [reflexivity|].
  unfold of_order, has_key at 1. simpl.
  destruct (Payment.order_id p =? o); simpl; [reflexivity | exact IH].
Qed.

Lemma fold_left_max_cons (l : list Z) (x y : Z) :
  fold_left Z.max l (Z.max x y) = Z.max x (fold_left Z.max l y).
Proof.
  revert x y. induction l as [|z t IH]; intros x y; simpl; [reflexivity|].
  rewrite <- IH. f_equal. lia.
Qed.

Lemma group_max_spec (o : string) (ps : list Payment.t) :
  agg_max (map Payment.payment_installments (filter (of_order o) ps))
  = spec_max_installments o ps.
Proof.
  induction ps as [|p t IH]; simpl; [reflexivity|].
  unfold of_order, has_key at 1. simpl.
  destruct (Payment.order_id p =? o); simpl; [|exact IH].
  fold (of_order o) in *.
  set (l := map Payment.payment_installments (filter (of_order o) t)) in *.
  rewrite <- IH. f_equal.
  destruct l as [|y l]; simpl; [reflexivity|].
  apply fold_left_max_cons.
Qed.

(** C1: every order_id of the Payment table has exactly one row in
    [order_payments]; its payment_value is the sum of the payment_value of
    all Payment rows of that order, its payment_type is that of the first
    such row in input order, and its max_installments is the largest
    instalment count among those rows. *)
Theorem order_payments_aggregates (ps : list Payment.t) (o : string) :
  In o (map Payment.order_id ps) ->
  NoDup (map AggregatedPayment.order_id (order_payments ps)) /\
  exists a,
    In a (order_payments ps) /\
    AggregatedPayment.order_id a = o /\
    (AggregatedPayment.payment_value a == spec_payment_sum o ps)%Q /\
    AggregatedPayment.payment_type a = spec_first_payment_type o ps /\
    AggregatedPayment.max_installments a = spec_max_installments o ps.
Proof.
  intros Ho. split.
  - unfold order_payments. rewrite map_map. simpl.
    apply (groupby_keys_NoDup (fun p => Some (Payment.order_id p)) ps).
  - apply in_map_iff in Ho. destruct Ho as [p [Hp Hin]].
    eexists. split.
    + unfold order_payments. apply in_map.
      apply (groupby_In (fun p => Some (Payment.order_id p)) ps o).
      exists p. split; [assumption | now rewrite Hp].
    + simpl. split; [reflexivity|].
      split; [apply group_sum_spec|].
      split; [apply group_first_spec | apply group_max_spec].
Qed.

Lemma order_payments_aggregates_witness :
  let ps := [pay "o1" "voucher" 1 (10 # 1); pay "o2" "boleto" 1 (7 # 1);
             pay "o1" "credit_card" 3 (25 # 2)] in
  In "o1" (map Payment.order_id ps) /\
  exists a,
    In a (order_payments ps) /\
    AggregatedPayment.order_id a = "o1" /\
    (AggregatedPayment.payment_value a == spec_payment_sum "o1" ps)%Q /\
    AggregatedPayment.payment_type a = spec_first_payment_type "o1" ps /\
    AggregatedPayment.max_installments a = spec_max_installments "o1" ps.
Proof.
  intros ps.
  assert (Hin : In "o1" (map Payment.order_id ps)) by (simpl; auto).
  split; [exact Hin|].
  exact (proj2 (order_payments_aggregates ps "o1" Hin)).
Defined.

(** On that table the row of order o1 carries 22.5, the sum of its two
    payments, and not the value of either of them. *)
Example order_payments_sums_both_rows :
  map (fun a => (AggregatedPayment.order_id a,
                 Qred (AggregatedPayment.payment_value a),
                 AggregatedPayment.payment_type a,
                 AggregatedPayment.max_installments a))
      (order_payments
         [pay "o1" "voucher" 1 (10 # 1); pay "o2" "boleto" 1 (7 # 1);
          pay "o1" "credit_card" 3 (25 # 2)])
  = [("o1", (45 # 2)%Q, Some "voucher", Some 3%Z);
     ("o2", (7 # 1)%Q, Some "boleto", Some 1%Z)].
Proof. vm_compute. reflexivity. Qed.

(** ** Merges *)

Section MergeFacts.
Context {L R : Type} (on : L -> R -> bool).

Lemma merge_inner_In (left : list L) (right : list R) (l : L) (r : R) :
  In (l, r) (merge_inner on left right) <->
  In l left /\ In r right /\ on l r = true.
Proof.
  unfold merge_inner. rewrite in_flat_map. split.
  - intros [l' [Hl Hin]]. apply in_map_iff in Hin.
    destruct Hin as [r' [E Hr]]. inversion E; subst.
    apply filter_In in Hr. tauto.
  - intros [Hl [Hr Hon]]. exists l. split; [assumption|].
    apply in_map, filter_In. tauto.
Qed.

Lemma merge_left_In (left : list L) (right : list R) (l : L) (c : option R) :
  In (l, c) (merge_left on left right) ->
  In l left /\
  match c with
  | Some r => In r right /\ on l r = true
  | None => forall r, In r right -> on l r = false
  end.
Proof.
  unfold merge_left. rewrite in_flat_map. intros [l' [Hl Hin]].
  destruct (filter (on l') right) as [|m ms] eqn:E.
  - destruct Hin as [Heq|[]]. inversion Heq; subst. split; [assumption|].
    intros r Hr. destruct (on l r) eqn:Hon; [|reflexivity].
    assert (Hf : In r (filter (on l) right)) by (apply filter_In; tauto).
    rewrite E in Hf. contradiction.
  - apply in_map_iff in Hin. destruct Hin as [r [Heq Hr]].
    inversion Heq; subst. split; [assumption|].
    rewrite <- E in Hr. apply filter_In in Hr. exact Hr.
Qed.

(** A left merge keeps every left row. *)
Lemma merge_left_keeps (left : list L) (right : list R) (l : L) :
  In l left -> exists c, In (l, c) (merge_left on left right).
Proof.
  intros Hl. unfold merge_left.
  destruct (filter (on l) right) as [|m ms] eqn:E.
  - exists None. apply in_flat_map. exists l. rewrite E. simpl. auto.
  - exists (Some m). apply in_flat_map. exists l. rewrite E.
    split; [assumption | now left].
Qed.

End MergeFacts.

(** ** The master table and the analysis window *)

Lemma delivered_In (os : list Order.t) (d : Delivered.t) :
  In d (delivered os) ->
  In (Delivered.order d) os /\
  Order.order_status (Delivered.order d) = "delivered" /\
  Delivered.year_month d = period_M_str (Delivered.order_purchase_timestamp d) /\
  Delivered.quarter d = period_Q_str (Delivered.order_purchase_timestamp d).
Proof.
  unfold delivered. rewrite in_map_iff. intros [o [<- Ho]].
  apply filter_In in Ho. destruct Ho as [Ho Hs].
  apply String.eqb_eq in Hs. simpl. auto.
Qed.

Lemma master_merged_In (tb : tables) (r : MasterRow.t) :
  In r (master_merged tb) ->
  In (MasterRow.delivered r) (delivered (orders tb)) /\
  In (MasterRow.item r)
     (items_enriched (items tb) (products tb) (translations tb)) /\
  MasterRow.order_id r = EnrichedItem.order_id (MasterRow.item r).
Proof.
  unfold master_merged. rewrite in_map_iff.
  intros [[[[[d e] a] c] s] [<- Hin]]. simpl.
  apply merge_left_In in Hin. destruct Hin as [Hin _].
  apply merge_left_In in Hin. destruct Hin as [Hin _].
  apply merge_left_In in Hin. destruct Hin as [Hin _].
  apply merge_inner_In in Hin. destruct Hin as [Hd [He Hon]].
  apply String.eqb_eq in Hon. auto.
Qed.

Lemma app_master_In (tb : tables) (r : AppMasterRow.t) :
  In r (app_master tb) ->
  In (AppMasterRow.delivered r) (delivered (orders tb)) /\
  In (AppMasterRow.item r)
     (items_e (items tb) (products tb) (translations tb)) /\
  in_window (AppMasterRow.year_month r) = true.
Proof.
  unfold app_master. rewrite filter_In, in_map_iff.
  intros [[[[d e] c] [<- Hin]] Hw]. simpl in *.
  apply merge_left_In in Hin. destruct Hin as [Hin _].
  apply merge_inner_In in Hin. tauto.
Qed.

(** A year_month inside the window comes from a parsed timestamp. *)
Lemma in_window_parsed (t : option timestamp) :
  in_window (period_M_str t) = true -> exists t', t = Some t'.
Proof.
  destruct t as [t'|]; [now exists t'|]. vm_compute. discriminate.
Qed.

Lemma monthly_In (m : list MasterRow.t) (g : Monthly.t) :
  In g (monthly m) ->
  exists r, In r m /\ MasterRow.year_month r = Monthly.year_month g.
Proof.
  unfold monthly. rewrite sort_values_In, in_map_iff.
  intros [[k rows] [<- Hg]]. simpl.
  assert (Hk : In k (map fst (groupby
                 (fun r => Some (MasterRow.year_month r)) m)))
    by (apply in_map_iff; exists (k, rows); auto).
  apply groupby_keys in Hk. destruct Hk as [r [Hr E]].
  exists r. split; [assumption | congruence].
Qed.

Lemma quarterly_revenue_In (m : list MasterRow.t) (g : Quarterly.t) :
  In g (quarterly_revenue m) ->
  exists r, In r m /\ MasterRow.quarter r = Quarterly.quarter g.
Proof.
  unfold quarterly_revenue. rewrite sort_values_In, in_map_iff.
  intros [[k rows] [<- Hg]]. simpl.
  assert (Hk : In k (map fst (groupby
                 (fun r => Some (MasterRow.quarter r)) m)))
    by (apply in_map_iff; exists (k, rows); auto).
  apply groupby_keys in Hk. destruct Hk as [r [Hr E]].
  exists r. split; [assumption | congruence].
Qed.

Lemma quarterly_In (m : list MasterRow.t) (g : Quarterly.t) :
  In g (quarterly m) ->
  exists r, In r m /\ MasterRow.quarter r = Quarterly.quarter g.
Proof.
  unfold quarterly. rewrite in_map_iff. intros [[q x] [<- Hin]]. simpl.
  apply in_combine_l in Hin. now apply quarterly_revenue_In.
Qed.

(** C2: in both entry points every row of the master table has its
    year_month between "2017-01" and "2018-08" as strings, and its purchase
    timestamp parsed; so have the months of the monthly aggregate, and
    every quarter of the quarterly aggregate is that of a parsed timestamp
    inside the window. *)
Theorem master_year_month_in_window (tb : tables) :
  (forall r, In r (master tb) ->
     ("2017-01" <=? MasterRow.year_month r) = true /\
     (MasterRow.year_month r <=? "2018-08") = true /\
     exists t,
       Delivered.order_purchase_timestamp (MasterRow.delivered r) = Some t /\
       MasterRow.year_month r = period_M_str (Some t)) /\
  (forall r, In r (app_master tb) ->
     ("2017-01" <=? AppMasterRow.year_month r) = true /\
     (AppMasterRow.year_month r <=? "2018-08") = true /\
     exists t,
       Delivered.order_purchase_timestamp (AppMasterRow.delivered r) = Some t /\
       AppMasterRow.year_month r = period_M_str (Some t)) /\
  (forall g, In g (monthly (master tb)) ->
     ("2017-01" <=? Monthly.year_month g) = true /\
     (Monthly.year_month g <=? "2018-08") = true) /\
  (forall g, In g (quarterly (master tb)) ->
     exists t,
       Quarterly.quarter g = period_Q_str (Some t) /\
       in_window (period_M_str (Some t)) = true).
Proof.
  assert (Hm : forall r, In r (master tb) ->
     in_window (MasterRow.year_month r) = true /\
     exists t,
       Delivered.order_purchase_timestamp (MasterRow.delivered r) = Some t /\
       MasterRow.year_month r = period_M_str (Some t) /\
       MasterRow.quarter r = period_Q_str (Some t)).
  { intros r Hr. unfold master in Hr. apply filter_In in Hr.
    destruct Hr as [Hr Hw]. split; [assumption|].
    apply master_merged_In in Hr. destruct Hr as [Hd _].
    apply delivered_In in Hd. destruct Hd as [_ [_ [Hym Hq]]].
    unfold MasterRow.year_month, MasterRow.quarter in *.
    rewrite Hym in Hw. destruct (in_window_parsed _ Hw) as [t Ht].
    exists t. rewrite Hym, Hq, Ht. auto. }
  split; [|split; [|split]].
  - intros r Hr. destruct (Hm r Hr) as [Hw [t [Ht [Hym _]]]].
    unfold in_window in Hw. apply andb_prop in Hw. destruct Hw.
    repeat split; try assumption. now exists t.
  - intros r Hr. apply app_master_In in Hr. destruct Hr as [Hd [_ Hw]].
    apply delivered_In in Hd. destruct Hd as [_ [_ [Hym _]]].
    unfold AppMasterRow.year_month in *.
    destruct (in_window_parsed
                (Delivered.order_purchase_timestamp
                   (AppMasterRow.delivered r))) as [t Ht];
      [now rewrite <- Hym|].
    unfold in_window in Hw. apply andb_prop in Hw. destruct Hw.
    repeat split; try assumption. exists t. now rewrite Hym, Ht.
  - intros g Hg. apply monthly_In in Hg. destruct Hg as [r [Hr <-]].
    destruct (Hm r Hr) as [Hw _]. unfold in_window in Hw.
    now apply andb_prop in Hw.
  - intros g Hg. apply quarterly_In in Hg. destruct Hg as [r [Hr <-]].
    destruct (Hm r Hr) as [Hw [t [_ [Hym Hq]]]].
    exists t. split; [assumption | now rewrite <- Hym].
Qed.

Lemma master_year_month_in_window_witness :
  exists r,
    In r (master sample_tables) /\
    ("2017-01" <=? MasterRow.year_month r) = true /\
    (MasterRow.year_month r <=? "2018-08") = true /\
    exists t,
      Delivered.order_purchase_timestamp (MasterRow.delivered r) = Some t /\
      MasterRow.year_month r = period_M_str (Some t).
Proof.
  assert (E : exists r l, master sample_tables = r :: l)
    by (vm_compute; eauto).
  destruct E as [r [l E]]. exists r.
  assert (Hr : In r (master sample_tables)) by (rewrite E; left; reflexivity).
  split; [exact Hr|].
  exact (proj1 (master_year_month_in_window sample_tables) r Hr).
Defined.

(** On the sample tables the merge yields rows for o1 (twice), o2 (not
    parsed) and o4 (December 2016); the window keeps the rows of o1 only. *)
Example master_drops_unparsed_and_outside :
  map (fun r => (MasterRow.order_id r, MasterRow.year_month r))
      (master_merged sample_tables)
  = [("o1", "2017-02"); ("o1", "2017-02"); ("o2", "NaT"); ("o4", "2016-12")]
  /\ map (fun r => (MasterRow.order_id r, MasterRow.year_month r))
         (master sample_tables)
     = [("o1", "2017-02"); ("o1", "2017-02")].
Proof. split; vm_compute; reflexivity. Qed.

(** ** The English category *)

Lemma items_merged_In (its : list Item.t) (prods : list Product.t)
  (trs : list Translation.t) (e : EnrichedItem.t) :
  In e (items_merged its prods trs) ->
  In (EnrichedItem.item e) its /\
  match EnrichedItem.product_category_name_english e with
  | Some s =>
      exists tr, In tr trs /\
        EnrichedItem.product_category_name e
        = Some (Translation.product_category_name tr) /\
        Translation.product_category_name_english tr = s
  | None =>
      forall tr, In tr trs ->
        EnrichedItem.product_category_name e
        <> Some (Translation.product_category_name tr)
  end.
Proof.
  unfold items_merged. rewrite in_map_iff.
  intros [[[i c] otr] [<- Hin]]. simpl.
  apply merge_left_In in Hin. destruct Hin as [Hic Hm]. simpl in Hm.
  split.
  - apply in_map_iff in Hic. destruct Hic as [[i' op] [E Hip]].
    inversion E; subst. apply merge_left_In in Hip. tauto.
  - destruct otr as [tr|]; simpl.
    + destruct Hm as [Htr Hon]. exists tr.
      destruct c as [c|]; [|discriminate].
      apply String.eqb_eq in Hon. subst. auto.
    + intros tr Htr E. specialize (Hm tr Htr). rewrite E in Hm.
      rewrite String.eqb_refl in Hm. discriminate.
Qed.

(** The category of a row is that of the product of its item; it is missing
    when the product has none or is not in the Product table. *)
Lemma items_merged_category (its : list Item.t) (prods : list Product.t)
  (trs : list Translation.t) (e : EnrichedItem.t) :
  In e (items_merged its prods trs) ->
  (exists p, In p prods /\
     Product.product_id p = Item.product_id (EnrichedItem.item e) /\
     EnrichedItem.product_category_name e = Product.product_category_name p)
  \/ ((forall p, In p prods ->
         Product.product_id p <> Item.product_id (EnrichedItem.item e)) /\
      EnrichedItem.product_category_name e = None).
Proof.
  unfold items_merged. rewrite in_map_iff.
  intros [[[i c] otr] [<- Hin]]. simpl.
  apply merge_left_In in Hin. destruct Hin as [Hic _].
  apply in_map_iff in Hic. destruct Hic as [[i' op] [E Hip]].
  inversion E; subst. apply merge_left_In in Hip.
  destruct Hip as [_ Hop]. destruct op as [p|]; simpl in *.
  - left. exists p. destruct Hop as [Hp Hon].
    apply String.eqb_eq in Hon. auto.
  - right. split; [|reflexivity]. intros p Hp E'.
    specialize (Hop p Hp). rewrite <- E', String.eqb_refl in Hop.
    discriminate.
Qed.

(** Both left merges keep every item. *)
Lemma items_merged_keeps (its : list Item.t) (prods : list Product.t)
  (trs : list Translation.t) (i : Item.t) :
  In i its ->
  exists e, In e (items_merged its prods trs) /\ EnrichedItem.item e = i.
Proof.
  intros Hi. unfold items_merged.
  destruct (merge_left_keeps
              (fun i p => Item.product_id i =? Product.product_id p)
              its prods i Hi) as [op Hop].
  set (cat := match op with
              | Some p => Product.product_category_name p
              | None => None
              end).
  set (wc := map _ (merge_left _ its prods)).
  assert (Hwc : In (i, cat) wc).
  { unfold wc. apply in_map_iff. exists (i, op). auto. }
  destruct (merge_left_keeps
              (fun (ic : Item.t * option string) tr =>
                 match snd ic with
                 | Some c => c =? Translation.product_category_name tr
                 | None => false
                 end) wc trs (i, cat) Hwc) as [otr Hotr].
  eexists. split.
  - apply in_map_iff. exists ((i, cat), otr). split; [reflexivity|exact Hotr].
  - reflexivity.
Qed.

(** The interactive view assigns the filled column: every row of [items_e]
    has a category, which is exactly "other" when the product has no
    category or the category is not in the translation table; every item
    has a row; and every row of its master table has a category. *)
Lemma app_category_never_missing (tb : tables) :
  (forall e,
     In e (items_e (items tb) (products tb) (translations tb)) ->
     (exists s, AppItem.category e = Some s) /\
     (EnrichedItem.product_category_name (AppItem.merged e) = None ->
      AppItem.category e = Some "other") /\
     ((forall tr, In tr (translations tb) ->
         EnrichedItem.product_category_name (AppItem.merged e)
         <> Some (Translation.product_category_name tr)) ->
      AppItem.category e = Some "other")) /\
  (forall i, In i (items tb) ->
     exists e,
       In e (items_e (items tb) (products tb) (translations tb)) /\
       EnrichedItem.item (AppItem.merged e) = i) /\
  (forall r, In r (app_master tb) ->
     exists s, AppMasterRow.category r = Some s).
Proof.
  assert (Hfill : forall e,
    In e (items_e (items tb) (products tb) (translations tb)) ->
    (exists s, AppItem.category e = Some s) /\
    (EnrichedItem.product_category_name (AppItem.merged e) = None ->
     AppItem.category e = Some "other") /\
    ((forall tr, In tr (translations tb) ->
        EnrichedItem.product_category_name (AppItem.merged e)
        <> Some (Translation.product_category_name tr)) ->
     AppItem.category e = Some "other")).
  { intros e He. unfold items_e in He. apply in_map_iff in He.
    destruct He as [e0 [<- He0]]. simpl.
    apply items_merged_In in He0. destruct He0 as [_ He0].
    destruct (EnrichedItem.product_category_name_english e0) as [s|]; simpl.
    - destruct He0 as [tr [Htr [Hc _]]]. split; [now exists s|].
      split.
      + intros Hn. congruence.
      + intros Hno. exfalso. exact (Hno tr Htr Hc).
    - split; [now exists "other" | auto]. }
  split; [exact Hfill|]. split.
  - intros i Hi.
    destruct (items_merged_keeps _ (products tb) (translations tb) i Hi)
      as [e [He Hei]].
    eexists. split; [unfold items_e; apply in_map; exact He|]. exact Hei.
  - intros r Hr. apply app_master_In in Hr. destruct Hr as [_ [He _]].
    now apply Hfill.
Qed.

(** The batch export fills a selection of the frame: where that selection
    was a view of the frame (pandas before copy-on-write), every row got
    a category. *)
Lemma fill_through_a_view (frame : list EnrichedItem.t) (e : EnrichedItem.t) :
  In e (fillna_inplace_on_selection false "other" frame) ->
  exists s, EnrichedItem.product_category_name_english e = Some s.
Proof.
  unfold fillna_inplace_on_selection. rewrite in_map_iff.
  intros [e0 [<- _]]. simpl.
  destruct (EnrichedItem.product_category_name_english e0) as [s|];
    [now exists s | now exists "other"].
Qed.

(** Under copy-on-write the frame is what the two merges left: a row whose
    product has no category, or whose category is not in the translation
    table, keeps a missing English category. *)
Lemma batch_category_stays_missing (its : list Item.t)
  (prods : list Product.t) (trs : list Translation.t) (e : EnrichedItem.t) :
  In e (items_enriched its prods trs) ->
  (forall tr, In tr trs ->
     EnrichedItem.product_category_name e
     <> Some (Translation.product_category_name tr)) ->
  EnrichedItem.product_category_name_english e = None.
Proof.
  unfold items_enriched, fillna_inplace_on_selection. intros He Hno.
  apply items_merged_In in He. destruct He as [_ He].
  destruct (EnrichedItem.product_category_name_english e) as [s|];
    [|reflexivity].
  destruct He as [tr [Htr [Hc _]]]. exfalso. exact (Hno tr Htr Hc).
Qed.

(** C3: on the sample tables (product p2 has no category, the category of
    p3 has no translation) the interactive view resolves both items to
    "other", but the batch export leaves their English category missing:
    its fill is done on a selection of the frame and never reaches the
    frame.  The item of p2 enters the master table without a category and
    is in no group of the category table, whose revenue is 30 instead of
    the 42 of the master table. *)
Theorem category_missing_in_batch_export :
  map (fun e => (Item.product_id (EnrichedItem.item (AppItem.merged e)),
                 AppItem.category e))
      (items_e (items sample_tables) (products sample_tables)
         (translations sample_tables))
  = [("p1", Some "health_beauty"); ("p2", Some "other");
     ("p3", Some "other"); ("p1", Some "health_beauty")] /\
  map (fun e => (Item.product_id (EnrichedItem.item e),
                 EnrichedItem.product_category_name_english e))
      (items_enriched (items sample_tables) (products sample_tables)
         (translations sample_tables))
  = [("p1", Some "health_beauty"); ("p2", None);
     ("p3", None); ("p1", Some "health_beauty")] /\
  map (fun r => (MasterRow.order_id r,
                 Item.product_id (EnrichedItem.item (MasterRow.item r)),
                 MasterRow.product_category_name_english r))
      (master sample_tables)
  = [("o1", "p1", Some "health_beauty"); ("o1", "p2", None)] /\
  map (fun c => (Category.product_category_name_english c,
                 Qred (Category.revenue c)))
      (categories (master sample_tables))
  = [("health_beauty", (30 # 1)%Q)] /\
  Qred (agg_sum (map MasterRow.price (master sample_tables))) = (42 # 1)%Q.
Proof. repeat split; vm_compute; reflexivity. Qed.

(** ** Scalar KPIs *)

Lemma inject_nat_zero (n : nat) :
  Qeq_bool (inject_Z (Z.of_nat n)) 0 = Nat.eqb n 0.
Proof.
  destruct n as [|n]; [reflexivity|].
  unfold Qeq_bool. simpl. destruct (Pos.of_succ_nat n); reflexivity.
Qed.

(** The batch export follows the rule of the specification: the quotient
    when there are delivered orders, 0 when there are none. *)
Lemma avg_order_value_guarded (tb : tables) :
  avg_order_value tb =
  if Nat.eqb (total_orders tb) 0 then Num 0
  else Num (total_revenue tb / inject_Z (Z.of_nat (total_orders tb))).
Proof.
  unfold avg_order_value, truediv. rewrite inject_nat_zero.
  destruct (Nat.eqb (total_orders tb) 0); reflexivity.
Qed.

(** Without delivered orders no payment survives the merge, and the
    interactive view divides 0.0 by 0. *)
Lemma app_avg_order_value_no_orders (tb : tables) :
  total_orders tb = 0%nat -> app_avg_order_value tb = NaN.
Proof.
  intros H0. unfold app_avg_order_value. rewrite H0.
  assert (Hrev : total_revenue tb = 0%Q).
  { unfold total_revenue, pay_merged, merge_inner.
    unfold total_orders in H0. apply length_zero_iff_nil in H0. rewrite H0.
    simpl. induction (payments tb); simpl; auto. }
  rewrite Hrev. reflexivity.
Qed.

(** C4: with no delivered order the batch export reports 0 for
    avg_order_value, but the "Avg Order Value" card of the interactive view
    divides without the guard and gets NaN instead of 0. *)
Theorem avg_order_value_without_delivered_orders :
  total_orders no_delivered_tables = 0%nat /\
  avg_order_value no_delivered_tables = Num 0 /\
  app_avg_order_value no_delivered_tables = NaN /\
  app_avg_order_value no_delivered_tables <> Num 0.
Proof.
  split; [reflexivity|]. split; [reflexivity|].
  split; [reflexivity | discriminate].
Qed.

Lemma delivered_length (os : list Order.t) :
  List.length (delivered os)
  = count_occ string_dec (map Order.order_status os) "delivered".
Proof.
  unfold delivered. rewrite length_map.
  induction os as [|o t IH]; simpl; [reflexivity|].
  destruct (string_dec (Order.order_status o) "delivered") as [E|E].
  - rewrite E. simpl. now rewrite IH.
  - apply String.eqb_neq in E. rewrite E. exact IH.
Qed.

(** C5: total_orders is the number of rows of the raw Order table whose
    status is exactly the string "delivered"; it is a function of the
    status column alone, whatever the purchase timestamps are. *)
Theorem total_orders_counts_delivered (tb : tables) :
  total_orders tb
  = count_occ string_dec (map Order.order_status (orders tb)) "delivered".
Proof. unfold total_orders. apply delivered_length. Qed.

(** On the sample tables three orders are delivered, one of them unparsed
    and one before the window, while the master table holds one order. *)
Example total_orders_ignores_window :
  total_orders sample_tables = 3%nat /\
  unique (map MasterRow.order_id (master sample_tables)) = ["o1"].
Proof. split; vm_compute; reflexivity. Qed.

(** The comparison of the status is exact: another capitalisation is not
    counted. *)
Example total_orders_case_sensitive :
  total_orders
    {| orders := [ord "o1" "c1" "Delivered" (Some (ts 2017 5 9));
                  ord "o2" "c1" "delivered" (Some (ts 2017 5 9))];
       items := []; payments := []; reviews := []; customers := [];
       products := []; sellers := []; translations := [] |} = 1%nat.
Proof. reflexivity. Qed.

(** ** Quarterly growth *)

Lemma pct_change_length (l : list PrimFloat.float) :
  List.length (Float64.pct_change l) = List.length l.
Proof.
  destruct l as [|x t]; simpl; [reflexivity|]. f_equal.
  revert x. induction t as [|y t IH]; intros x; simpl; [reflexivity|].
  f_equal. apply IH.
Qed.

Lemma growth_column_length (l : list Q) :
  List.length (growth_column l) = List.length l.
Proof.
  unfold growth_column. now rewrite length_map, pct_change_length, length_map.
Qed.


Lemma combine_columns {A B C : Type} (f : A -> C) (l : list A) (g : list B) :
  List.length g = List.length l ->
  map (fun p => f (fst p)) (combine l g) = map f l /\
  map snd (combine l g) = g.
Proof.
  revert g. induction l as [|a l IH]; intros [|b g] Hlen;
    simpl in *; try discriminate; auto.
  destruct (IH g) as [E1 E2]; [lia|]. now rewrite E1, E2.
Qed.

(** The columns of [quarterly]: those of the sorted groups, and the growth
    computed from their revenue column. *)
Lemma quarterly_columns (m : list MasterRow.t) :
  map Quarterly.quarter (quarterly m)
  = map Quarterly.quarter (quarterly_revenue m) /\
  map Quarterly.revenue (quarterly m)
  = map Quarterly.revenue (quarterly_revenue m) /\
  map Quarterly.orders (quarterly m)
  = map Quarterly.orders (quarterly_revenue m) /\
  map Quarterly.growth_pct (quarterly m)
  = growth_column (map Quarterly.revenue (quarterly_revenue m)).
Proof.
  unfold quarterly. rewrite !map_map. simpl.
  set (q := quarterly_revenue m).
  set (g := growth_column (map Quarterly.revenue q)).
  assert (Hlen : List.length g = List.length q)
    by (unfold g; now rewrite growth_column_length, length_map).
  repeat split.
  - exact (proj1 (combine_columns Quarterly.quarter q g Hlen)).
  - exact (proj1 (combine_columns Quarterly.revenue q g Hlen)).
  - exact (proj1 (combine_columns Quarterly.orders q g Hlen)).
  - exact (proj2 (combine_columns Quarterly.quarter q g Hlen)).
Qed.

Lemma Sorted_map_iff {A B : Type} (f : A -> B) (P : B -> B -> Prop)
  (l : list A) :
  Sorted (fun a b => P (f a) (f b)) l <-> Sorted P (map f l).
Proof.
  induction l as [|a t IH]; simpl; [split; constructor|].
  split; intros Hs; inversion Hs as [|? ? Ht Hhd]; subst;
    (constructor; [now apply IH|]);
    destruct t; simpl in *; constructor; now inversion Hhd.
Qed.

Lemma Sorted_adjacent {A : Type} (P : A -> A -> Prop) (l : list A)
  (i : nat) (a b : A) :
  Sorted P l -> nth_error l i = Some a -> nth_error l (S i) = Some b ->
  P a b.
Proof.
  intros Hs. revert i. induction Hs as [|x t Ht IH Hhd]; intros i Ha Hb.
  - destruct i; discriminate.
  - destruct i as [|i]; simpl in *.
    + inversion Ha; subst. destruct t; [discriminate|].
      simpl in Hb. inversion Hb; subst. now inversion Hhd.
    + now apply (IH i).
Qed.

Lemma NoDup_adjacent {A : Type} (l : list A) (i : nat) (a b : A) :
  NoDup l -> nth_error l i = Some a -> nth_error l (S i) = Some b -> a <> b.
Proof.
  intros Hn Ha Hb E. subst b.
  rewrite NoDup_nth_error in Hn.
  assert (Hi : (i < List.length l)%nat)
    by (apply nth_error_Some; congruence).
  specialize (Hn i (S i) Hi). rewrite Ha, Hb in Hn.
  specialize (Hn eq_refl). lia.
Qed.

Lemma string_ltb_of_leb (a b : string) :
  (a <=? b) = true -> a <> b -> (a <? b) = true.
Proof.
  unfold String.leb, String.ltb. intros Hle Hne.
  destruct (a ?= b) eqn:E; try reflexivity; try discriminate.
  apply String.compare_eq_iff in E. contradiction.
Qed.





(** On the tables with prices 30, 40, 0 and 5: NaN, then +33.3 %, -100 %,
    and an infinite growth after the quarter without revenue. *)
Example quarterly_growth_sample :
  map (fun q => (Quarterly.quarter q, Quarterly.growth_pct q))
      (quarterly (master growth_tables))
  = [("2017Q1", PrimFloat.nan);
     ("2017Q2", PrimFloat.div (Float64.of_Z 333) (Float64.of_Z 10));
     ("2017Q3", Float64.of_Z (-100));
     ("2017Q4", PrimFloat.infinity)].
Proof. vm_compute. reflexivity. Qed.

(** ** Credit-card instalments *)

Lemma sort_values_sorted_id {R : Type} (le : R -> R -> bool) (l : list R) :
  Sorted (fun a b => le a b = true) l -> sort_values le l = l.
Proof.
  induction 1 as [|x t Ht IH Hhd]; simpl; [reflexivity|].
  rewrite IH. destruct Hhd as [|y t' Hxy]; simpl; [reflexivity|].
  now rewrite Hxy.
Qed.

Lemma Z_sorted_strict (l : list Z) :
  Sorted (fun a b => (a <=? b)%Z = true) l -> NoDup l ->
  StronglySorted Z.lt l.
Proof.
  intros Hs Hn. apply Sorted_StronglySorted in Hs.
  - induction Hs as [|x t Ht IH Hall]; [constructor|].
    inversion Hn as [|? ? Hx Hn']; subst.
    constructor; [now apply IH|].
    rewrite Forall_forall in *. intros y Hy.
    specialize (Hall y Hy). apply Z.leb_le in Hall.
    assert (x <> y) by (intros ->; contradiction). lia.
  - intros a b c. rewrite !Z.leb_le. lia.
Qed.

Lemma StronglySorted_app_order {A : Type} (P : A -> A -> Prop)
  (l1 l2 : list A) (x y : A) :
  StronglySorted P (l1 ++ l2) -> In x l1 -> In y l2 -> P x y.
Proof.
  induction l1 as [|a t IH]; simpl; intros Hs Hx Hy; [contradiction|].
  inversion Hs as [|? ? Ht Hall]; subst.
  destruct Hx as [->|Hx].
  - rewrite Forall_forall in Hall. apply Hall, in_or_app. now right.
  - now apply IH.
Qed.

Lemma StronglySorted_firstn {A : Type} (P : A -> A -> Prop) (n : nat)
  (l : list A) :
  StronglySorted P l -> StronglySorted P (firstn n l).
Proof.
  intros Hs. revert n. induction Hs as [|x t Ht IH Hall]; intros [|n];
    simpl; try constructor; [apply IH|].
  rewrite Forall_forall in *. intros y Hy. apply Hall.
  rewrite <- (firstn_skipn n t). apply in_or_app. now left.
Qed.

Lemma installment_groups_keys (tb : tables) :
  map Installment.payment_installments (installment_groups tb)
  = map fst (groupby (fun p => Some (Payment.payment_installments p))
               (credit_card_payments tb)).
Proof. unfold installment_groups. now rewrite map_map. Qed.

Lemma installment_groups_ascending (tb : tables) :
  StronglySorted Z.lt
    (map Installment.payment_installments (installment_groups tb)).
Proof.
  rewrite installment_groups_keys. apply Z_sorted_strict.
  - exact (groupby_keys_sorted
             (fun p => Some (Payment.payment_installments p))
             (credit_card_payments tb)).
  - apply (groupby_keys_NoDup
             (fun p => Some (Payment.payment_installments p))).
Qed.

Lemma installment_groups_In (tb : tables) (n : Z) :
  In n (map Installment.payment_installments (installment_groups tb)) <->
  exists p, In p (pay_merged tb) /\
            Payment.payment_type p = "credit_card" /\
            Payment.payment_installments p = n.
Proof.
  rewrite installment_groups_keys, groupby_keys.
  unfold credit_card_payments. split.
  - intros [p [Hp E]]. apply filter_In in Hp. destruct Hp as [Hp Hcc].
    apply String.eqb_eq in Hcc. exists p. inversion E. auto.
  - intros [p [Hp [Hcc E]]]. exists p. split; [|now rewrite E].
    apply filter_In. split; [assumption|]. now apply String.eqb_eq.
Qed.

Lemma installments_head (tb : tables) :
  installments tb = firstn 12 (installment_groups tb).
Proof.
  unfold installments, head. f_equal. apply sort_values_sorted_id.
  apply (Sorted_map_iff Installment.payment_installments
           (fun a b => (a <=? b)%Z = true)).
  rewrite installment_groups_keys.
  exact (groupby_keys_sorted
           (fun p => Some (Payment.payment_installments p))
           (credit_card_payments tb)).
Qed.

Lemma installment_groups_measures (tb : tables) (r : Installment.t) :
  In r (installment_groups tb) ->
  let rows :=
    filter (fun p => (Payment.payment_installments p
                      =? Installment.payment_installments r)%Z)
           (credit_card_payments tb) in
  Installment.count r = List.length rows /\
  Installment.total r = agg_sum (map Payment.payment_value rows).
Proof.
  unfold installment_groups. rewrite in_map_iff.
  intros [g [<- Hg]]. simpl. apply groupby_group in Hg.
  rewrite Hg.
  unfold agg_count. rewrite length_map. split; reflexivity.
Qed.

(** C7, as the code has it: the instalment aggregate of the batch export
    holds the twelve smallest instalment counts that occur among the
    credit-card payments of delivered orders (all of them when there are
    fewer), in strictly ascending order, each with the number and the sum
    of those payments; the interactive view keeps the counts from 1 to 10
    instead. *)
Theorem installments_twelve_smallest (tb : tables) :
  (List.length (installments tb) <= 12)%nat /\
  StronglySorted Z.lt
    (map Installment.payment_installments (installments tb)) /\
  (forall r, In r (installments tb) ->
     (exists p, In p (pay_merged tb) /\
                Payment.payment_type p = "credit_card" /\
                Payment.payment_installments p
                = Installment.payment_installments r) /\
     let rows :=
       filter (fun p => (Payment.payment_installments p
                         =? Installment.payment_installments r)%Z)
              (credit_card_payments tb) in
     Installment.count r = List.length rows /\
     Installment.total r = agg_sum (map Payment.payment_value rows)) /\
  (forall p, In p (pay_merged tb) ->
     Payment.payment_type p = "credit_card" ->
     (exists r, In r (installments tb) /\
                Installment.payment_installments r
                = Payment.payment_installments p) \/
     (List.length (installments tb) = 12%nat /\
      forall r, In r (installments tb) ->
        (Installment.payment_installments r
         < Payment.payment_installments p)%Z)) /\
  (forall r, In r (inst tb) <->
     In r (installment_groups tb) /\
     (1 <= Installment.payment_installments r <= 10)%Z).
Proof.
  rewrite installments_head.
  set (G := installment_groups tb).
  assert (HG : StronglySorted Z.lt (map Installment.payment_installments G))
    by apply installment_groups_ascending.
  split; [apply firstn_le_length|].
  split; [rewrite <- firstn_map; now apply StronglySorted_firstn|].
  split; [|split].
  - intros r Hr.
    assert (HrG : In r G)
      by (rewrite <- (firstn_skipn 12 G); apply in_or_app; now left).
    split.
    + apply installment_groups_In. now apply in_map.
    + now apply installment_groups_measures.
  - intros p Hp Hcc.
    assert (Hk : In (Payment.payment_installments p)
                   (map Installment.payment_installments G))
      by (apply installment_groups_In; exists p; auto).
    apply in_map_iff in Hk. destruct Hk as [r [Hkey HrG]].
    rewrite <- (firstn_skipn 12 G) in HrG. apply in_app_or in HrG.
    destruct HrG as [Hfirst|Hrest]; [left; now exists r|right].
    split.
    + apply firstn_length_le.
      destruct (Nat.le_gt_cases 12 (List.length G)) as [Hle|Hgt];
        [exact Hle|].
      rewrite skipn_all2 in Hrest by lia. contradiction.
    + intros r' Hr'. rewrite <- Hkey.
      rewrite <- (firstn_skipn 12 G), map_app in HG.
      apply (StronglySorted_app_order Z.lt _ _ _ _ HG); now apply in_map.
  - intros r. unfold inst. rewrite filter_In. fold G.
    rewrite andb_true_iff, !Z.leb_le. tauto.
Qed.

Lemma installments_twelve_smallest_witness :
  exists r,
    In r (installments sample_tables) /\
    Installment.payment_installments r = 24%Z /\
    exists p, In p (pay_merged sample_tables) /\
              Payment.payment_type p = "credit_card" /\
              Payment.payment_installments p
              = Installment.payment_installments r.
Proof.
  assert (E : exists r, In r (installments sample_tables) /\
                        Installment.payment_installments r = 24%Z)
    by (vm_compute; eexists; split; [right; left; reflexivity|reflexivity]).
  destruct E as [r [Hr Hk]]. exists r.
  split; [exact Hr|]. split; [exact Hk|].
  exact (proj1 (proj1 (proj2 (proj2 (installments_twelve_smallest
                                       sample_tables))) r Hr)).
Defined.

(** The claim as the specification states it fails: on the sample tables
    the delivered order o4 was paid by credit card in 24 instalments, and
    the aggregate has a row for 24. *)
Lemma installments_outside_one_to_twelve :
  ~ (forall tb r, In r (installments tb) ->
       (1 <= Installment.payment_installments r <= 12)%Z).
Proof.
  intros Hclaim.
  assert (E : exists r, In r (installments sample_tables) /\
                        Installment.payment_installments r = 24%Z)
    by (vm_compute; eexists; split; [right; left; reflexivity|reflexivity]).
  destruct E as [r [Hr Hk]].
  specialize (Hclaim sample_tables r Hr). lia.
Qed.

Example installments_sample :
  map Installment.payment_installments (installments sample_tables)
  = [3%Z; 24%Z] /\
  map Installment.payment_installments (inst sample_tables) = [3%Z].
Proof. split; vm_compute; reflexivity. Qed.

(** ** Time dimensions *)

Lemma append_assoc (a b c : string) :
  ((a ++ b) ++ c = a ++ (b ++ c))%string.
Proof. induction a as [|x a IH]; simpl; [reflexivity | now rewrite IH]. Qed.

Lemma append_length (a b : string) :
  String.length (a ++ b)%string = (String.length a + String.length b)%nat.
Proof. induction a as [|x a IH]; simpl; [reflexivity | now rewrite IH]. Qed.

Lemma substring_append (a b : string) :
  substring 0 (String.length a) (a ++ b)%string = a.
Proof.
  induction a as [|x a IH]; simpl.
  - destruct b; reflexivity.
  - now rewrite IH.
Qed.

Lemma substring_prefix (a b : string) (n : nat) :
  String.length a = n -> substring 0 n (a ++ b)%string = a.
Proof. intros <-. apply substring_append. Qed.

Lemma zfill4_length (y : nat) :
  (1677 <= y <= 2262)%nat -> String.length (zfill 4 y) = 4%nat.
Proof.
  intros Hy.
  assert (Hall : forallb (fun n => Nat.eqb (String.length (zfill 4 n)) 4)
                   (seq 1677 586) = true) by (vm_compute; reflexivity).
  rewrite forallb_forall in Hall. apply Nat.eqb_eq, Hall, in_seq. lia.
Qed.

Lemma zfill2_length (m : nat) :
  (m <= 12)%nat -> String.length (zfill 2 m) = 2%nat.
Proof.
  intros Hm.
  assert (Hall : forallb (fun n => Nat.eqb (String.length (zfill 2 n)) 2)
                   (seq 0 13) = true) by (vm_compute; reflexivity).
  rewrite forallb_forall in Hall. apply Nat.eqb_eq, Hall, in_seq. lia.
Qed.

Lemma quarter_digit (q : nat) :
  (1 <= q <= 4)%nat -> zfill 1 q = String (ascii_of_nat (48 + q)) EmptyString.
Proof.
  intros Hq.
  assert (Hall : forallb (fun n => zfill 1 n
                          =? String (ascii_of_nat (48 + n)) EmptyString)
                   (seq 1 4) = true) by (vm_compute; reflexivity).
  rewrite forallb_forall in Hall. apply String.eqb_eq, Hall, in_seq. lia.
Qed.

Lemma quarter_of_month_spec (m : nat) :
  (1 <= m <= 12)%nat ->
  (1 <= quarter_of_month m <= 4)%nat /\
  (3 * (quarter_of_month m - 1) < m <= 3 * quarter_of_month m)%nat.
Proof.
  intros Hm. unfold quarter_of_month.
  pose proof (Nat.div_mod_eq (m - 1) 3) as Hdm.
  assert (Hmod : ((m - 1) mod 3 < 3)%nat)
    by (apply Nat.mod_upper_bound; discriminate).
  lia.
Qed.

(** C8, as the code has it: for a delivered order with a parsed purchase
    timestamp, year_month is the first seven characters [YYYY-MM] of the
    timestamp, and quarter is the four digits of the year, the letter Q and
    the digit of the quarter the month lies in (months 1 to 3 give 1, and
    so on), with no hyphen between the year and the Q. *)
Theorem delivered_time_dimensions (os : list Order.t) (d : Delivered.t)
  (t : timestamp) :
  In d (delivered os) ->
  Delivered.order_purchase_timestamp d = Some t ->
  valid_timestamp t ->
  Delivered.year_month d = substring 0 7 (timestamp_str t) /\
  exists q,
    (1 <= q <= 4)%nat /\ (3 * (q - 1) < month t <= 3 * q)%nat /\
    Delivered.quarter d
    = (substring 0 4 (timestamp_str t)
       ++ String "Q" (String (ascii_of_nat (48 + q)) EmptyString))%string.
Proof.
  intros Hd Ht [Hy Hm]. apply delivered_In in Hd.
  destruct Hd as [_ [_ [Hym Hq]]]. rewrite Ht in Hym, Hq.
  pose proof (zfill4_length (year t) Hy) as Hy4.
  assert (Hm2 : String.length (zfill 2 (month t)) = 2%nat)
    by (apply zfill2_length; lia).
  split.
  - rewrite Hym. unfold period_M_str, timestamp_str.
    set (rest := ("-" ++ zfill 2 (day t) ++ _)%string).
    replace (zfill 4 (year t) ++ "-" ++ zfill 2 (month t) ++ rest)%string
      with ((zfill 4 (year t) ++ "-" ++ zfill 2 (month t)) ++ rest)%string
      by (now rewrite !append_assoc).
    apply eq_sym, substring_prefix.
    rewrite !append_length, Hy4, Hm2. reflexivity.
  - exists (quarter_of_month (month t)).
    destruct (quarter_of_month_spec (month t) Hm) as [Hq1 Hq2].
    split; [exact Hq1|]. split; [exact Hq2|].
    rewrite Hq. unfold period_Q_str, timestamp_str.
    rewrite (substring_prefix (zfill 4 (year t)) _ 4 Hy4).
    now rewrite (quarter_digit _ Hq1).
Qed.

Lemma delivered_time_dimensions_witness :
  exists d,
    In d (delivered (orders sample_tables)) /\
    Delivered.order_purchase_timestamp d = Some (ts 2017 2 3) /\
    valid_timestamp (ts 2017 2 3) /\
    Delivered.year_month d = substring 0 7 (timestamp_str (ts 2017 2 3)).
Proof.
  assert (E : exists d,
             In d (delivered (orders sample_tables)) /\
             Delivered.order_purchase_timestamp d = Some (ts 2017 2 3))
    by (vm_compute; eexists; split; [left; reflexivity|reflexivity]).
  destruct E as [d [Hd Ht]]. exists d.
  assert (Hv : valid_timestamp (ts 2017 2 3))
    by (unfold valid_timestamp; simpl; lia).
  split; [exact Hd|]. split; [exact Ht|]. split; [exact Hv|].
  exact (proj1 (delivered_time_dimensions (orders sample_tables) d
                  (ts 2017 2 3) Hd Ht Hv)).
Defined.

(** The claim as the specification states it fails: the quarter of an
    order bought on 2017-02-03 is "2017Q1", not "2017-Q1". *)
Lemma quarter_label_has_no_hyphen :
  ~ (forall os d t,
       In d (delivered os) ->
       Delivered.order_purchase_timestamp d = Some t ->
       valid_timestamp t ->
       Delivered.quarter d = spec_quarter t).
Proof.
  intros Hclaim.
  assert (E : exists d,
             In d (delivered (orders sample_tables)) /\
             Delivered.order_purchase_timestamp d = Some (ts 2017 2 3) /\
             Delivered.quarter d = "2017Q1")
    by (vm_compute; eexists; split; [left; reflexivity|split; reflexivity]).
  destruct E as [d [Hd [Ht Hq]]].
  assert (Hv : valid_timestamp (ts 2017 2 3))
    by (unfold valid_timestamp; simpl; lia).
  specialize (Hclaim (orders sample_tables) d (ts 2017 2 3) Hd Ht Hv).
  rewrite Hq in Hclaim. vm_compute in Hclaim. discriminate Hclaim.
Qed.

Example time_dimensions_sample :
  map (fun d => (Delivered.order_id d, Delivered.year_month d,
                 Delivered.quarter d, Delivered.year d))
      (delivered (orders sample_tables))
  = [("o1", "2017-02", "2017Q1", Some 2017%nat);
     ("o2", "NaT", "NaT", None);
     ("o4", "2016-12", "2016Q4", Some 2016%nat)].
Proof. vm_compute. reflexivity. Qed.

(** ** Loading *)

(** C9, as the code has it: when a source file is absent, the batch script
    dies of the FileNotFoundError of the first absent file in load order,
    which carries that file's path, and has written no JSON; the
    interactive view catches the error, reports one fixed message and
    stops without any frame.  When the eight files are there, the batch
    script works on the eight tables as read and writes the dashboard; the
    interactive view's [load_data] returns five frames (master, delivered,
    payments, reviews and the delivery data), not the eight raw tables. *)
Theorem load_outcomes (fs : data_dir) :
  match first_missing fs with
  | Some path =>
      run_pipeline fs
      = {| raised := Some (FileNotFoundError path);
           output_dashboard_data_json := None |} /\
      load_data fs = ([st_error_message], None) /\
      run_app fs = Stopped [st_error_message]
  | None =>
      exists tb,
        load_tables fs = inr tb /\
        olist_orders_dataset fs = Some (orders tb) /\
        olist_order_items_dataset fs = Some (items tb) /\
        olist_order_payments_dataset fs = Some (payments tb) /\
        olist_order_reviews_dataset fs = Some (reviews tb) /\
        olist_customers_dataset fs = Some (customers tb) /\
        olist_products_dataset fs = Some (products tb) /\
        olist_sellers_dataset fs = Some (sellers tb) /\
        product_category_name_translation fs = Some (translations tb) /\
        run_pipeline fs
        = {| raised := None;
             output_dashboard_data_json := Some (dashboard tb) |} /\
        exists d,
          load_data fs = ([], Some d) /\
          run_app fs = Rendered d /\
          app_data_master d = app_master tb /\
          app_data_delivered d = delivered (orders tb) /\
          app_data_payments d = payments tb /\
          app_data_reviews d = reviews tb
  end.
Proof.
  destruct fs as [o i p r c pr s t].
  destruct o as [o|]; [|cbn; auto].
  destruct i as [i|]; [|cbn; auto].
  destruct p as [p|]; [|cbn; auto].
  destruct r as [r|]; [|cbn; auto].
  destruct c as [c|]; [|cbn; auto].
  destruct pr as [pr|]; [|cbn; auto].
  destruct s as [s|]; [|cbn; auto].
  destruct t as [t|]; [|cbn; auto].
  cbn. eexists. split; [reflexivity|].
  repeat (split; [reflexivity|]).
  eexists. repeat (split; [reflexivity|]). reflexivity.
Qed.

(** The fixed message of the interactive view names none of the files. *)
Lemma st_error_message_names_no_file (fs : data_dir) :
  forallb (fun pf => negb (contains (fst pf) st_error_message))
          (expected_files fs) = true.
Proof. destruct fs. vm_compute. reflexivity. Qed.

(** The claim as the specification states it fails in the interactive
    view: without the sellers file, the error it reports does not name
    that file. *)
Lemma app_error_does_not_name_the_file :
  ~ (forall fs path,
       first_missing fs = Some path ->
       match run_app fs with
       | Stopped errors =>
           exists msg, In msg errors /\ contains path msg = true
       | Rendered _ => False
       end).
Proof.
  intros Hclaim.
  specialize (Hclaim no_sellers_dir "data/olist_sellers_dataset.csv" eq_refl).
  vm_compute in Hclaim. destruct Hclaim as [msg [[<-|[]] Hc]].
  discriminate Hc.
Qed.

Example load_sample :
  raised (run_pipeline no_sellers_dir)
  = Some (FileNotFoundError "data/olist_sellers_dataset.csv") /\
  output_dashboard_data_json (run_pipeline no_sellers_dir) = None /\
  run_app no_sellers_dir = Stopped [st_error_message] /\
  raised (run_pipeline sample_dir) = None /\
  option_map (fun j => kpi_total_orders (json_kpis j))
    (output_dashboard_data_json (run_pipeline sample_dir)) = Some 3%nat.
Proof. repeat split; vm_compute; reflexivity. Qed.

(** ** Order counts of the grouped aggregates *)

Lemma unique_nodup_length (l : list string) :
  List.length (unique l) = List.length (nodup string_dec l).
Proof.
  apply Permutation_length, NoDup_Permutation.
  - apply unique_NoDup.
  - apply NoDup_nodup.
  - intros x. now rewrite unique_In, nodup_In.
Qed.

(** ['nunique'] over the order_id column of a list of master rows. *)
Lemma nunique_orders (rows : list MasterRow.t) :
  agg_nunique (map MasterRow.order_id rows)
  = List.length (nodup string_dec (map MasterRow.order_id rows)) /\
  (agg_nunique (map MasterRow.order_id rows) <= List.length rows)%nat.
Proof.
  unfold agg_nunique. split; [apply unique_nodup_length|].
  rewrite <- (length_map MasterRow.order_id rows). apply unique_length.
Qed.

Lemma firstn_incl {A : Type} (n : nat) (l : list A) (x : A) :
  In x (firstn n l) -> In x l.
Proof.
  intros Hx. rewrite <- (firstn_skipn n l). apply in_or_app. now left.
Qed.

(** From a row of an aggregate to the group it was computed from. *)
Ltac group_of Hg :=
  let grp := fresh "grp" in
  let Hgrp := fresh "Hgrp" in
  apply sort_values_In, in_map_iff in Hg;
  destruct Hg as [grp [<- Hgrp]];
  apply groupby_group in Hgrp;
  simpl; rewrite Hgrp.

(** C10: in the monthly, category, state and quarterly aggregates of the
    master table, the orders measure of a row is the number of distinct
    order_id values among the master rows of that group (an order with
    several item rows counts once), and it is at most the number of those
    rows. *)
Theorem orders_measure_counts_distinct_orders (tb : tables) :
  (forall g, In g (monthly (master tb)) ->
     let rows :=
       filter (fun r => MasterRow.year_month r =? Monthly.year_month g)
              (master tb) in
     Monthly.orders g
     = List.length (nodup string_dec (map MasterRow.order_id rows)) /\
     (Monthly.orders g <= List.length rows)%nat) /\
  (forall g, In g (categories (master tb)) ->
     let rows :=
       filter (fun r =>
                 match MasterRow.product_category_name_english r with
                 | Some c => c =? Category.product_category_name_english g
                 | None => false
                 end)
              (master tb) in
     Category.orders g
     = List.length (nodup string_dec (map MasterRow.order_id rows)) /\
     (Category.orders g <= List.length rows)%nat) /\
  (forall g, In g (states (master tb)) ->
     let rows :=
       filter (fun r =>
                 match MasterRow.customer_state r with
                 | Some s => s =? State.customer_state g
                 | None => false
                 end)
              (master tb) in
     State.orders g
     = List.length (nodup string_dec (map MasterRow.order_id rows)) /\
     (State.orders g <= List.length rows)%nat) /\
  (forall g, In g (quarterly (master tb)) ->
     let rows :=
       filter (fun r => MasterRow.quarter r =? Quarterly.quarter g)
              (master tb) in
     Quarterly.orders g
     = List.length (nodup string_dec (map MasterRow.order_id rows)) /\
     (Quarterly.orders g <= List.length rows)%nat).
Proof.
  set (m := master tb).
  split; [|split; [|split]].
  - intros g Hg. unfold monthly in Hg. group_of Hg. apply nunique_orders.
  - intros g Hg. unfold categories, head in Hg. apply firstn_incl in Hg.
    group_of Hg. apply nunique_orders.
  - intros g Hg. unfold states in Hg. group_of Hg. apply nunique_orders.
  - intros g Hg. unfold quarterly in Hg. apply in_map_iff in Hg.
    destruct Hg as [[g0 x] [<- Hin]]. apply in_combine_l in Hin.
    unfold quarterly_revenue in Hin. group_of Hin. apply nunique_orders.
Qed.

Lemma orders_measure_counts_distinct_orders_witness :
  exists g,
    In g (monthly (master sample_tables)) /\
    Monthly.orders g = 1%nat /\
    let rows :=
      filter (fun r => MasterRow.year_month r =? Monthly.year_month g)
             (master sample_tables) in
    Monthly.orders g
    = List.length (nodup string_dec (map MasterRow.order_id rows)) /\
    (Monthly.orders g <= List.length rows)%nat.
Proof.
  assert (E : exists g, In g (monthly (master sample_tables)) /\
                        Monthly.orders g = 1%nat)
    by (vm_compute; eexists; split; [left; reflexivity|reflexivity]).
  destruct E as [g [Hg H1]]. exists g.
  split; [exact Hg|]. split; [exact H1|].
  exact (proj1 (orders_measure_counts_distinct_orders sample_tables) g Hg).
Defined.

(** On the sample tables order o1 has two item rows in February 2017 and
    counts once. *)
Example monthly_sample :
  map (fun g => (Monthly.year_month g, Monthly.orders g))
      (monthly (master sample_tables)) = [("2017-02", 1%nat)] /\
  List.length (master sample_tables) = 2%nat.
Proof. split; vm_compute; reflexivity. Qed.

(** ** Sums over groups *)

Lemma agg_sum_app (l1 l2 : list Q) :
  (agg_sum (l1 ++ l2) == agg_sum l1 + agg_sum l2)%Q.
Proof.
  induction l1 as [|x t IH]; simpl; [ring|]. rewrite IH. ring.
Qed.

Lemma agg_sum_perm (l1 l2 : list Q) :
  Permutation l1 l2 -> (agg_sum l1 == agg_sum l2)%Q.
Proof.
  induction 1 as [|x l l' _ IH|x y l|l l' l'' _ IH1 _ IH2]; simpl.
  - reflexivity.
  - now rewrite IH.
  - ring.
  - now rewrite IH1.
Qed.

Lemma agg_sum_map_ext {A : Type} (g h : A -> Q) (l : list A) :
  (forall x, In x l -> (g x == h x)%Q) ->
  (agg_sum (map g l) == agg_sum (map h l))%Q.
Proof.
  induction l as [|x t IH]; simpl; intros E; [reflexivity|].
  rewrite (E x (or_introl eq_refl)), IH; [reflexivity|].
  intros y Hy. apply E. now right.
Qed.

Lemma agg_sum_map_plus {A : Type} (g h : A -> Q) (l : list A) :
  (agg_sum (map (fun x => g x + h x) l)
   == agg_sum (map g l) + agg_sum (map h l))%Q.
Proof.
  induction l as [|x t IH]; simpl; [ring|]. rewrite IH. ring.
Qed.

Lemma filter_all {A : Type} (f : A -> bool) (l : list A) :
  (forall x, In x l -> f x = true) -> filter f l = l.
Proof.
  induction l as [|x t IH]; simpl; intros Hall; [reflexivity|].
  rewrite (Hall x (or_introl eq_refl)), IH; [reflexivity|].
  intros y Hy. apply Hall. now right.
Qed.

Section GroupSums.
Context {R K : Type} `{KeyType K} (key : R -> option K) (f : R -> Q).

Lemma indicator_sum (k0 : K) (v : Q) (keys : list K) :
  NoDup keys ->
  (agg_sum (map (fun k => if keqb k0 k then v else 0) keys)
   == if existsb (keqb k0) keys then v else 0)%Q.
Proof.
  induction 1 as [|k t Hk Hn IH]; simpl; [reflexivity|].
  rewrite IH. destruct (keqb k0 k) eqn:E; simpl.
  - apply keqb_eq in E. subst k.
    destruct (existsb (keqb k0) t) eqn:Ex; [|ring].
    apply existsb_keqb in Ex. contradiction.
  - ring.
Qed.

Lemma sum_over_keys (keys : list K) (rows : list R) :
  NoDup keys ->
  (agg_sum (map (fun k => agg_sum (map f (filter (has_key key k) rows)))
              keys)
   == agg_sum (map f (filter (key_among key keys) rows)))%Q.
Proof.
  intros Hn. induction rows as [|r t IH].
  - simpl. induction keys as [|k ks IHk]; simpl; [reflexivity|].
    inversion Hn; subst. rewrite IHk by assumption. ring.
  - simpl. unfold key_among at 1, has_key.
    destruct (key r) as [k0|] eqn:Ek.
    + rewrite (agg_sum_map_ext _
                 (fun k => (if keqb k0 k then f r else 0)
                           + agg_sum (map f (filter (has_key key k) t)))%Q).
      * rewrite agg_sum_map_plus, indicator_sum by assumption.
        fold (has_key key) in IH. rewrite IH.
        destruct (existsb (keqb k0) keys); simpl; ring.
      * intros k _. unfold has_key. destruct (keqb k0 k); simpl; ring.
    + exact IH.
Qed.

(** The sums of the groups of [groupby] add up to the sum over the rows
    that have a key. *)
Lemma groupby_sum (rows : list R) :
  (agg_sum (map (fun g => agg_sum (map f (snd g))) (groupby key rows))
   == agg_sum (map f (filter (fun r => present (key r)) rows)))%Q.
Proof.
  unfold groupby. rewrite map_map. simpl.
  set (keys := sort_values kleb (unique (dropna (map key rows)))).
  rewrite sum_over_keys.
  - rewrite (filter_ext_in (key_among key keys)
               (fun r => present (key r)));
      [reflexivity|].
    intros r Hr. unfold key_among. destruct (key r) as [k|] eqn:Ek;
      [|reflexivity].
    simpl. apply existsb_keqb. unfold keys.
    rewrite sort_values_In, unique_In, dropna_In, <- Ek. now apply in_map.
  - eapply Permutation_NoDup; [apply sort_values_perm|apply unique_NoDup].
Qed.

End GroupSums.

(** The per-order payment values add up to the Payment table's total: no
    payment is lost or counted twice by the grouping. *)
Theorem order_payments_conserve_value (ps : list Payment.t) :
  (agg_sum (map AggregatedPayment.payment_value (order_payments ps))
   == agg_sum (map Payment.payment_value ps))%Q.
Proof.
  unfold order_payments. rewrite map_map. simpl.
  rewrite (groupby_sum (fun p => Some (Payment.order_id p))
             Payment.payment_value ps).
  rewrite filter_all; [reflexivity | reflexivity].
Qed.

(** The monthly and the quarterly revenue both add up to the item prices
    of the master table, the monthly freight to its freight, and the
    monthly totals to both together. *)
Theorem monthly_quarterly_conserve_revenue (m : list MasterRow.t) :
  (agg_sum (map Monthly.revenue (monthly m))
   == agg_sum (map MasterRow.price m))%Q /\
  (agg_sum (map Monthly.freight (monthly m))
   == agg_sum (map MasterRow.freight_value m))%Q /\
  (agg_sum (map Monthly.total (monthly m))
   == agg_sum (map MasterRow.price m)
      + agg_sum (map MasterRow.freight_value m))%Q /\
  (agg_sum (map Quarterly.revenue (quarterly m))
   == agg_sum (map MasterRow.price m))%Q.
Proof.
  assert (Hall : filter (fun r : MasterRow.t =>
                           present (Some (MasterRow.year_month r))) m = m)
    by (apply filter_all; reflexivity).
  assert (Hrev : (agg_sum (map Monthly.revenue (monthly m))
                  == agg_sum (map MasterRow.price m))%Q).
  { unfold monthly.
    rewrite <- (agg_sum_perm _ _ (Permutation_map Monthly.revenue
                                    (sort_values_perm _ _))).
    rewrite map_map. simpl.
    rewrite (groupby_sum (fun r => Some (MasterRow.year_month r))
               MasterRow.price m).
    now rewrite Hall. }
  assert (Hfr : (agg_sum (map Monthly.freight (monthly m))
                 == agg_sum (map MasterRow.freight_value m))%Q).
  { unfold monthly.
    rewrite <- (agg_sum_perm _ _ (Permutation_map Monthly.freight
                                    (sort_values_perm _ _))).
    rewrite map_map. simpl.
    rewrite (groupby_sum (fun r => Some (MasterRow.year_month r))
               MasterRow.freight_value m).
    now rewrite Hall. }
  split; [exact Hrev|]. split; [exact Hfr|]. split.
  - rewrite <- Hrev, <- Hfr. unfold monthly.
    rewrite <- !(agg_sum_perm _ _ (Permutation_map _
                                     (sort_values_perm _ _))).
    rewrite !map_map. simpl.
    apply (agg_sum_map_plus
             (fun g : string * list MasterRow.t =>
                agg_sum (map MasterRow.price (snd g)))
             (fun g => agg_sum (map MasterRow.freight_value (snd g)))).
  - destruct (quarterly_columns m) as [_ [Hr _]]. rewrite Hr.
    unfold quarterly_revenue.
    rewrite <- (agg_sum_perm _ _ (Permutation_map Quarterly.revenue
                                    (sort_values_perm _ _))).
    rewrite map_map. simpl.
    rewrite (groupby_sum (fun r => Some (MasterRow.quarter r))
               MasterRow.price m).
    rewrite filter_all; [reflexivity | reflexivity].
Qed.

(** ** Ranked aggregates *)

Lemma revenue_desc_total {A : Type} (revenue : A -> Q) (a b : A) :
  revenue_desc revenue a b = true \/ revenue_desc revenue b a = true.
Proof.
  unfold revenue_desc. rewrite !Qle_bool_iff.
  destruct (Qlt_le_dec (revenue a) (revenue b)) as [Hlt|Hle];
    [right; now apply Qlt_le_weak | now left].
Qed.

Lemma revenue_desc_sorted {A : Type} (revenue : A -> Q) (l : list A) :
  StronglySorted (fun a b => (revenue b <= revenue a)%Q)
    (sort_values (revenue_desc revenue) l).
Proof.
  apply Sorted_StronglySorted.
  - intros a b c Hab Hbc. now apply Qle_trans with (revenue b).
  - pose proof (sort_values_sorted (revenue_desc revenue)
                  (revenue_desc_total revenue) l) as Hs.
    induction Hs as [|x t Ht IH Hhd]; constructor; [exact IH|].
    destruct Hhd as [|y t' Hxy]; constructor.
    now apply Qle_bool_iff.
Qed.

(** What [sort_values(..., ascending=False).head(n)] keeps ranks at least
    as high as whatever it leaves out. *)
Lemma head_keeps_largest {A : Type} (revenue : A -> Q) (n : nat)
  (l : list A) (x y : A) :
  In x (head n (sort_values (revenue_desc revenue) l)) ->
  In y l ->
  In y (head n (sort_values (revenue_desc revenue) l)) \/
  (List.length (head n (sort_values (revenue_desc revenue) l)) = n /\
   (revenue y <= revenue x)%Q).
Proof.
  unfold head. set (s := sort_values (revenue_desc revenue) l).
  intros Hx Hy.
  assert (Hys : In y s) by (apply sort_values_In; exact Hy).
  rewrite <- (firstn_skipn n s) in Hys. apply in_app_or in Hys.
  destruct Hys as [Hin|Hout]; [now left|right]. split.
  - apply firstn_length_le.
    destruct (Nat.le_gt_cases n (List.length s)) as [Hle|Hgt];
      [exact Hle|].
    rewrite skipn_all2 in Hout by lia. contradiction.
  - pose proof (revenue_desc_sorted revenue l) as Hs. fold s in Hs.
    rewrite <- (firstn_skipn n s) in Hs.
    exact (StronglySorted_app_order _ _ _ x y Hs Hx Hout).
Qed.

Lemma NoDup_map_firstn {A B : Type} (f : A -> B) (n : nat) (l : list A) :
  NoDup (map f l) -> NoDup (map f (firstn n l)).
Proof.
  intros Hn. rewrite <- (firstn_skipn n l), map_app in Hn.
  exact (NoDup_app_remove_r _ _ Hn).
Qed.

(** The category table holds at most fifteen categories, each once, in
    order of falling revenue, and every category it leaves out has a
    revenue no larger than each one it keeps. *)
Theorem categories_top_fifteen (m : list MasterRow.t) :
  (List.length (categories m) <= 15)%nat /\
  NoDup (map Category.product_category_name_english (categories m)) /\
  StronglySorted (fun a b => (Category.revenue b <= Category.revenue a)%Q)
    (categories m) /\
  (forall grp kept,
     In grp (groupby MasterRow.product_category_name_english m) ->
     In kept (categories m) ->
     (exists c, In c (categories m) /\
                Category.product_category_name_english c = fst grp) \/
     (List.length (categories m) = 15%nat /\
      (agg_sum (map MasterRow.price (snd grp)) <= Category.revenue kept)%Q)).
Proof.
  unfold categories.
  set (rows := map _ (groupby MasterRow.product_category_name_english m)).
  split; [apply firstn_le_length|]. split; [|split].
  - apply NoDup_map_firstn.
    eapply Permutation_NoDup;
      [apply Permutation_map, sort_values_perm|].
    unfold rows. rewrite map_map. simpl.
    apply (groupby_keys_NoDup MasterRow.product_category_name_english m).
  - apply StronglySorted_firstn, revenue_desc_sorted.
  - intros grp kept Hgrp Hkept.
    set (row := {| Category.product_category_name_english := fst grp;
                   Category.revenue := agg_sum (map MasterRow.price (snd grp));
                   Category.orders :=
                     agg_nunique (map MasterRow.order_id (snd grp));
                   Category.avg_price :=
                     agg_mean (map MasterRow.price (snd grp)) |}).
    assert (Hrow : In row rows)
      by (unfold rows; apply in_map_iff; exists grp; auto).
    destruct (head_keeps_largest Category.revenue 15 rows kept row
                Hkept Hrow) as [Hin|[Hlen Hle]].
    + left. exists row. auto.
    + right. auto.
Qed.

(** The state table has one row per customer state, in order of falling
    revenue; its revenue adds up to the item prices of the master rows
    whose customer was found, so rows without a customer record are in no
    state. *)
Theorem states_cover_rows_with_customer (m : list MasterRow.t) :
  NoDup (map State.customer_state (states m)) /\
  StronglySorted (fun a b => (State.revenue b <= State.revenue a)%Q)
    (states m) /\
  (forall s, In s (map State.customer_state (states m)) <->
     exists r, In r m /\ MasterRow.customer_state r = Some s) /\
  (agg_sum (map State.revenue (states m))
   == agg_sum (map MasterRow.price
                 (filter (fun r => present (MasterRow.customer r)) m)))%Q.
Proof.
  unfold states.
  set (rows := map _ (groupby MasterRow.customer_state m)).
  assert (Hkeys : map State.customer_state rows
                  = map fst (groupby MasterRow.customer_state m))
    by (unfold rows; now rewrite map_map).
  split; [|split; [|split]].
  - eapply Permutation_NoDup;
      [apply Permutation_map, sort_values_perm|].
    rewrite Hkeys. apply groupby_keys_NoDup.
  - apply revenue_desc_sorted.
  - intros s. rewrite <- (groupby_keys MasterRow.customer_state m s), <- Hkeys.
    split; apply Permutation_in; [symmetry|];
      apply Permutation_map, sort_values_perm.
  - rewrite <- (agg_sum_perm _ _ (Permutation_map State.revenue
                                    (sort_values_perm _ _))).
    unfold rows. rewrite map_map. simpl.
    rewrite (groupby_sum MasterRow.customer_state MasterRow.price m).
    rewrite (filter_ext (fun r => present (MasterRow.customer_state r))
               (fun r => present (MasterRow.customer r))); [reflexivity|].
    intros r. unfold MasterRow.customer_state.
    now destruct (MasterRow.customer r).
Qed.

(** The payment type table has one row per payment type, in order of
    falling value, and its values add up to total_revenue. *)
Theorem payment_dist_adds_up_to_revenue (tb : tables) :
  NoDup (map PaymentType.payment_type (payment_dist tb)) /\
  StronglySorted
    (fun a b => (PaymentType.total_value b <= PaymentType.total_value a)%Q)
    (payment_dist tb) /\
  (agg_sum (map PaymentType.total_value (payment_dist tb))
   == total_revenue tb)%Q.
Proof.
  unfold payment_dist.
  set (rows := map _ (groupby _ (pay_merged tb))).
  split; [|split].
  - eapply Permutation_NoDup;
      [apply Permutation_map, sort_values_perm|].
    unfold rows. rewrite map_map. simpl.
    apply (groupby_keys_NoDup (fun p => Some (Payment.payment_type p))).
  - apply revenue_desc_sorted.
  - rewrite <- (agg_sum_perm _ _ (Permutation_map PaymentType.total_value
                                    (sort_values_perm _ _))).
    unfold rows. rewrite map_map. simpl.
    rewrite (groupby_sum (fun p => Some (Payment.payment_type p))
               Payment.payment_value (pay_merged tb)).
    rewrite filter_all; [reflexivity | reflexivity].
Qed.

Lemma categories_top_fifteen_witness :
  exists grp kept,
    In grp (groupby MasterRow.product_category_name_english
              (master sample_tables)) /\
    In kept (categories (master sample_tables)) /\
    ((exists c, In c (categories (master sample_tables)) /\
                Category.product_category_name_english c = fst grp) \/
     (List.length (categories (master sample_tables)) = 15%nat /\
      (agg_sum (map MasterRow.price (snd grp)) <= Category.revenue kept)%Q)).
Proof.
  assert (E : exists grp kept,
             In grp (groupby MasterRow.product_category_name_english
                       (master sample_tables)) /\
             In kept (categories (master sample_tables)))
    by (vm_compute; eexists; eexists; split; left; reflexivity).
  destruct E as [grp [kept [Hg Hk]]]. exists grp, kept.
  split; [exact Hg|]. split; [exact Hk|].
  exact (proj2 (proj2 (proj2 (categories_top_fifteen (master sample_tables))))
           grp kept Hg Hk).
Defined.

(** ** Merges on unique keys *)

Section UniqueMatches.
Context {L R : Type} (on : L -> R -> bool).

Lemma merge_inner_fst_unique (left : list L) (right : list R) :
  (forall l, In l left -> (List.length (filter (on l) right) <= 1)%nat) ->
  map fst (merge_inner on left right)
  = filter (fun l => existsb (on l) right) left.
Proof.
  unfold merge_inner. induction left as [|l t IH]; intros Hu; simpl;
    [reflexivity|].
  rewrite map_app, IH by (intros x Hx; apply Hu; now right).
  f_equal. specialize (Hu l (or_introl eq_refl)).
  assert (Hex : existsb (on l) right = negb (is_empty (filter (on l) right))).
  { destruct (filter (on l) right) as [|r rs] eqn:E; simpl.
    - destruct (existsb (on l) right) eqn:Ex; [|reflexivity].
      apply existsb_exists in Ex. destruct Ex as [r [Hr Hon]].
      assert (Hin : In r (filter (on l) right)) by (apply filter_In; auto).
      rewrite E in Hin. contradiction.
    - apply existsb_exists. exists r.
      apply filter_In. rewrite E. now left. }
  rewrite Hex.
  destruct (filter (on l) right) as [|r [|r' rs]]; simpl in *;
    [reflexivity | reflexivity | lia].
Qed.

Lemma merge_left_fst_unique (left : list L) (right : list R) :
  (forall l, In l left -> (List.length (filter (on l) right) <= 1)%nat) ->
  map fst (merge_left on left right) = left.
Proof.
  unfold merge_left. induction left as [|l t IH]; intros Hu;
    [reflexivity|].
  cbn [flat_map].
  rewrite map_app, IH by (intros x Hx; apply Hu; now right).
  specialize (Hu l (or_introl eq_refl)).
  destruct (filter (on l) right) as [|r [|r' rs]]; simpl in *;
    [reflexivity | reflexivity | lia].
Qed.

End UniqueMatches.

(** A table whose key column has no duplicates offers at most one partner
    to a merge on that key. *)
Lemma unique_key_one_match {A : Type} (key : A -> string) (k : string)
  (on : A -> bool) (l : list A) :
  NoDup (map key l) ->
  (forall a, on a = true -> key a = k) ->
  (List.length (filter on l) <= 1)%nat.
Proof.
  intros Hn Hon. induction l as [|a t IH]; simpl; [lia|].
  inversion Hn as [|? ? Ha Hn']; subst.
  destruct (on a) eqn:E; [|now apply IH].
  simpl. destruct (filter on t) as [|b rest] eqn:Ef; [simpl; lia|].
  exfalso. apply Ha.
  assert (Hb : In b (filter on t)) by (rewrite Ef; now left).
  apply filter_In in Hb. destruct Hb as [Hb Honb].
  rewrite (Hon a E), <- (Hon b Honb). now apply in_map.
Qed.

(** Filtering rows keeps their keys distinct. *)
Lemma filter_keeps_keys_distinct {Row Key : Type} (keep : Row -> bool)
  (key : Row -> Key) (rows : list Row) (Hdistinct : NoDup (map key rows)) :
  NoDup (map key (filter keep rows)).
Proof.
  induction rows as [|row rest IH]; [constructor|].
  cbn [map] in Hdistinct. apply NoDup_cons_iff in Hdistinct.
  destruct Hdistinct as [Hfresh Hrest]. specialize (IH Hrest).
  cbn [filter]. destruct (keep row); [|exact IH].
  cbn [map]. apply NoDup_cons; [|exact IH].
  intros Hin. apply in_map_iff in Hin. destruct Hin as [other [Ekey Hother]].
  apply filter_In in Hother. destruct Hother as [Hother _].
  apply Hfresh. rewrite <- Ekey. now apply in_map.
Qed.

Lemma delivered_order_ids (os : list Order.t) :
  NoDup (map Order.order_id os) ->
  NoDup (map Delivered.order_id (delivered os)).
Proof.
  intros Hn. unfold delivered. rewrite map_map.
  exact (filter_keeps_keys_distinct _ Order.order_id os Hn).
Qed.

(** With order ids that are unique in the Order table, the payments that
    enter total_revenue, the payment mix and the instalment table are the
    payments of delivered orders, each exactly once and in input order; the
    same holds for the reviews behind the review KPIs. *)
Theorem pay_merged_is_a_filter (tb : tables) :
  NoDup (map Order.order_id (orders tb)) ->
  pay_merged tb
  = filter (fun p => existsb (fun d => Payment.order_id p
                                       =? Delivered.order_id d)
                       (delivered (orders tb)))
           (payments tb) /\
  review_data tb
  = filter (fun r => existsb (fun d => Review.order_id r
                                       =? Delivered.order_id d)
                       (delivered (orders tb)))
           (reviews tb).
Proof.
  intros Hn. apply delivered_order_ids in Hn. split.
  - unfold pay_merged. apply merge_inner_fst_unique. intros p _.
    apply (unique_key_one_match Delivered.order_id (Payment.order_id p));
      [exact Hn|].
    intros d E. apply String.eqb_eq in E. now symmetry.
  - unfold review_data. apply merge_inner_fst_unique. intros r _.
    apply (unique_key_one_match Delivered.order_id (Review.order_id r));
      [exact Hn|].
    intros d E. apply String.eqb_eq in E. now symmetry.
Qed.

Lemma pay_merged_is_a_filter_witness :
  NoDup (map Order.order_id (orders sample_tables)) /\
  pay_merged sample_tables
  = filter (fun p => existsb (fun d => Payment.order_id p
                                       =? Delivered.order_id d)
                       (delivered (orders sample_tables)))
           (payments sample_tables).
Proof.
  assert (Hn : NoDup (map Order.order_id (orders sample_tables))).
  { simpl. repeat constructor; simpl; intuition discriminate. }
  split; [exact Hn|].
  exact (proj1 (pay_merged_is_a_filter sample_tables Hn)).
Defined.

(** An order id that occurs twice among the delivered orders counts its
    payments twice. *)
Example duplicate_order_doubles_revenue :
  Qred (total_revenue
          {| orders := [ord "o1" "c1" "delivered" (Some (ts 2017 2 3));
                        ord "o1" "c1" "delivered" (Some (ts 2017 2 3))];
             items := []; payments := [pay "o1" "boleto" 1 (10 # 1)];
             reviews := []; customers := []; products := [];
             sellers := []; translations := [] |}) = (20 # 1)%Q.
Proof. vm_compute. reflexivity. Qed.

(** ** The master table of the two entry points *)

Lemma merge_left_map_left {L L' R : Type} (g : L' -> L)
  (on : L -> R -> bool) (on' : L' -> R -> bool)
  (left : list L') (right : list R) :
  (forall l r, on' l r = on (g l) r) ->
  map (fun lc => (g (fst lc), snd lc)) (merge_left on' left right)
  = merge_left on (map g left) right.
Proof.
  intros Hon. unfold merge_left.
  induction left as [|l t IH]; [reflexivity|].
  change (map g (l :: t)) with (g l :: map g t).
  cbn [flat_map]. rewrite map_app, IH. f_equal.
  rewrite (filter_ext (on' l) (on (g l))) by (intros r; apply Hon).
  destruct (filter (on (g l)) right) as [|r rs]; [reflexivity|].
  now rewrite map_map.
Qed.

Lemma merge_inner_map_right {L R R' : Type} (h : R -> R')
  (on : L -> R -> bool) (on' : L -> R' -> bool)
  (left : list L) (right : list R) :
  (forall l r, on' l (h r) = on l r) ->
  merge_inner on' left (map h right)
  = map (fun lr => (fst lr, h (snd lr))) (merge_inner on left right).
Proof.
  intros Hon. unfold merge_inner.
  induction left as [|l t IH]; [reflexivity|].
  cbn [flat_map]. rewrite map_app, IH. f_equal.
  rewrite !map_map. simpl. clear IH.
  induction right as [|r rs IHr]; simpl; [reflexivity|].
  rewrite Hon. destruct (on l r); simpl; now rewrite IHr.
Qed.

Lemma map_filter_comm {A B : Type} (g : A -> B) (p : B -> bool)
  (l : list A) :
  map g (filter (fun a => p (g a)) l) = filter p (map g l).
Proof.
  induction l as [|a t IH]; simpl; [reflexivity|].
  destruct (p (g a)); simpl; now rewrite IH.
Qed.

Lemma order_payments_keys_NoDup (ps : list Payment.t) :
  NoDup (map AggregatedPayment.order_id (order_payments ps)).
Proof.
  unfold order_payments. rewrite map_map. simpl.
  apply (groupby_keys_NoDup (fun p => Some (Payment.order_id p)) ps).
Qed.

(** The merge with the per-order payments adds columns and no rows. *)
Lemma payment_merge_keeps_rows {A : Type} (oid : A -> string)
  (rows : list A) (ps : list Payment.t) :
  map fst (merge_left (fun x a => oid x =? AggregatedPayment.order_id a)
             rows (order_payments ps)) = rows.
Proof.
  apply merge_left_fst_unique. intros x _.
  apply (unique_key_one_match AggregatedPayment.order_id (oid x));
    [apply order_payments_keys_NoDup|].
  intros a E. apply String.eqb_eq in E. now symmetry.
Qed.

(** With customer and seller ids that are unique in their tables, the
    three left merges of the batch export add columns and no rows: the
    master table before the window filter has exactly the pairs of a
    delivered order and one of its items, in the order of the inner
    merge. *)
Theorem master_left_merges_keep_rows (tb : tables) :
  NoDup (map Customer.customer_id (customers tb)) ->
  NoDup (map Seller.seller_id (sellers tb)) ->
  map (fun r => (MasterRow.delivered r, MasterRow.item r)) (master_merged tb)
  = merge_inner
      (fun d e => Delivered.order_id d =? EnrichedItem.order_id e)
      (delivered (orders tb))
      (items_enriched (items tb) (products tb) (translations tb)).
Proof.
  intros Hc Hs. unfold master_merged. cbv zeta. rewrite map_map. simpl.
  set (wi := merge_inner _ (delivered (orders tb)) _).
  rewrite (map_ext _ (fun row => fst (fst (fst row))))
    by (intros [[[[d e] a] c] s]; reflexivity).
  rewrite <- (map_map (fun x => fst (fst x)) fst).
  rewrite <- (map_map fst fst).
  rewrite merge_left_fst_unique.
  - rewrite merge_left_fst_unique.
    + apply (payment_merge_keeps_rows
               (fun de : Delivered.t * EnrichedItem.t =>
                  Delivered.order_id (fst de))).
    + intros x _.
      apply (unique_key_one_match Customer.customer_id
               (Delivered.customer_id (fst (fst x)))); [exact Hc|].
      intros c E. apply String.eqb_eq in E. now symmetry.
  - intros x _.
    apply (unique_key_one_match Seller.seller_id
             (Item.seller_id (EnrichedItem.item (snd (fst (fst x))))));
      [exact Hs|].
    intros s E. apply String.eqb_eq in E. now symmetry.
Qed.

Lemma master_left_merges_keep_rows_witness :
  NoDup (map Customer.customer_id (customers sample_tables)) /\
  NoDup (map Seller.seller_id (sellers sample_tables)) /\
  map (fun r => (MasterRow.delivered r, MasterRow.item r))
      (master_merged sample_tables)
  = merge_inner
      (fun d e => Delivered.order_id d =? EnrichedItem.order_id e)
      (delivered (orders sample_tables))
      (items_enriched (items sample_tables) (products sample_tables)
         (translations sample_tables)).
Proof.
  assert (Hc : NoDup (map Customer.customer_id (customers sample_tables)))
    by (simpl; repeat constructor; simpl; intuition discriminate).
  assert (Hs : NoDup (map Seller.seller_id (sellers sample_tables)))
    by (simpl; repeat constructor; simpl; intuition discriminate).
  split; [exact Hc|]. split; [exact Hs|].
  exact (master_left_merges_keep_rows sample_tables Hc Hs).
Defined.

Lemma map_through {A B C : Type} (h : A -> B) (g : B -> C) (f : A -> C)
  (l : list A) :
  (forall x, f x = g (h x)) -> map f l = map g (map h l).
Proof. intros E. rewrite map_map. now apply map_ext. Qed.

(** With seller ids that are unique in the Seller table, the two entry
    points build the same master rows: the same delivered order, item and
    customer, row by row, and the category of the interactive view is the
    English category of the batch row with "other" for a missing cell. *)
Theorem master_tables_agree (tb : tables) :
  NoDup (map Seller.seller_id (sellers tb)) ->
  map master_core (master tb) = map app_master_core (app_master tb).
Proof.
  intros Hs.
  pose (base :=
    merge_left
      (fun (de : Delivered.t * EnrichedItem.t) c =>
         Delivered.customer_id (fst de) =? Customer.customer_id c)
      (merge_inner
         (fun d e => Delivered.order_id d =? EnrichedItem.order_id e)
         (delivered (orders tb))
         (items_merged (items tb) (products tb) (translations tb)))
      (customers tb)).
  pose (core0 := fun x : (Delivered.t * EnrichedItem.t) * option Customer.t =>
    (fst (fst x), EnrichedItem.item (snd (fst x)),
     fillna "other" (EnrichedItem.product_category_name_english (snd (fst x))),
     snd x)).
  pose (p := fun c : Delivered.t * Item.t * option string * option Customer.t =>
    in_window (Delivered.year_month (fst (fst (fst c))))).
  assert (H1 : map master_core (master_merged tb) = map core0 base).
  { unfold master_merged. cbv zeta. rewrite map_map.
    rewrite (map_through fst
      (fun wc : ((Delivered.t * EnrichedItem.t)
                 * option AggregatedPayment.t) * option Customer.t =>
         (fst (fst (fst wc)), EnrichedItem.item (snd (fst (fst wc))),
          fillna "other"
            (EnrichedItem.product_category_name_english (snd (fst (fst wc)))),
          snd wc)))
      by (intros row; reflexivity).
    rewrite merge_left_fst_unique.
    2:{ intros x _.
        apply (unique_key_one_match Seller.seller_id
                 (Item.seller_id (EnrichedItem.item (snd (fst (fst x))))));
          [exact Hs|].
        intros s E. apply String.eqb_eq in E. now symmetry. }
    rewrite (map_through
      (fun wc : ((Delivered.t * EnrichedItem.t)
                 * option AggregatedPayment.t) * option Customer.t =>
         (fst (fst wc), snd wc))
      (fun x : (Delivered.t * EnrichedItem.t) * option Customer.t =>
         (fst (fst x), EnrichedItem.item (snd (fst x)),
          fillna "other"
            (EnrichedItem.product_category_name_english (snd (fst x))),
          snd x)))
      by (intros wc; reflexivity).
    rewrite (merge_left_map_left fst
               (fun (de : Delivered.t * EnrichedItem.t) c =>
                  Delivered.customer_id (fst de) =? Customer.customer_id c))
      by (intros l r; reflexivity).
    rewrite (payment_merge_keeps_rows
               (fun de : Delivered.t * EnrichedItem.t =>
                  Delivered.order_id (fst de))).
    unfold items_enriched, fillna_inplace_on_selection.
    fold base. reflexivity. }
  assert (H2 : map app_master_core (app_master tb) = filter p (map core0 base)).
  { unfold app_master.
    change (fun r : AppMasterRow.t => in_window (AppMasterRow.year_month r))
      with (fun r : AppMasterRow.t => p (app_master_core r)).
    rewrite map_filter_comm. f_equal.
    rewrite map_map. unfold items_e.
    rewrite (merge_inner_map_right _
               (fun d e => Delivered.order_id d =? EnrichedItem.order_id e))
      by (intros l r; reflexivity).
    rewrite <- (merge_left_map_left _ _
                  (fun (de : Delivered.t * EnrichedItem.t) c =>
                     Delivered.customer_id (fst de) =? Customer.customer_id c))
      by (intros l r; reflexivity).
    fold base. rewrite map_map. apply map_ext. intros x. reflexivity. }
  rewrite H2, <- H1. unfold master.
  change (fun r : MasterRow.t => in_window (MasterRow.year_month r))
    with (fun r : MasterRow.t => p (master_core r)).
  apply map_filter_comm.
Qed.

Lemma master_tables_agree_witness :
  NoDup (map Seller.seller_id (sellers sample_tables)) /\
  map master_core (master sample_tables)
  = map app_master_core (app_master sample_tables).
Proof.
  assert (Hs : NoDup (map Seller.seller_id (sellers sample_tables)))
    by (simpl; repeat constructor; simpl; intuition discriminate).
  split; [exact Hs|]. exact (master_tables_agree sample_tables Hs).
Defined.

(** A seller listed twice in the Seller table doubles the rows of the
    batch export, and not those of the interactive view. *)
Example duplicate_seller_doubles_master_rows :
  let tb :=
    {| orders := [ord "o1" "c1" "delivered" (Some (ts 2017 2 3))];
       items := [itm "o1" "p1" "s1" (30 # 1) (5 # 1)];
       payments := []; reviews := []; customers := []; products := [];
       sellers :=
         [{| Seller.seller_id := "s1"; Seller.seller_state := "RJ";
             Seller.seller_city := "niteroi" |};
          {| Seller.seller_id := "s1"; Seller.seller_state := "RJ";
             Seller.seller_city := "niteroi" |}];
       translations := [] |} in
  List.length (master tb) = 2%nat /\ List.length (app_master tb) = 1%nat.
Proof. split; vm_compute; reflexivity. Qed.

(** ** Averages and shares *)

Lemma inject_nat_succ (n : nat) :
  (inject_Z (Z.of_nat (S n)) == inject_Z (Z.of_nat n) + 1)%Q.
Proof. rewrite Nat2Z.inj_succ. unfold Z.succ. now rewrite inject_Z_plus. Qed.

Lemma inject_nat_pos (n : nat) :
  (0 < n)%nat -> (0 < inject_Z (Z.of_nat n))%Q.
Proof.
  intros Hn. change 0%Q with (inject_Z 0). rewrite <- Zlt_Qlt. lia.
Qed.

Lemma agg_sum_bounds (a b : Q) (l : list Q) :
  (forall x, In x l -> (a <= x <= b)%Q) ->
  (a * inject_Z (Z.of_nat (List.length l)) <= agg_sum l
   <= b * inject_Z (Z.of_nat (List.length l)))%Q.
Proof.
  induction l as [|x t IH]; intros Hall.
  - simpl. split; apply Qle_lteq; right; ring.
  - cbn [List.length agg_sum fold_right]. fold (agg_sum t).
    rewrite inject_nat_succ.
    destruct (Hall x (or_introl eq_refl)) as [Hax Hxb].
    destruct IH as [IHa IHb]; [intros y Hy; apply Hall; now right|].
    split.
    + setoid_replace (a * (inject_Z (Z.of_nat (List.length t)) + 1))%Q
        with (a + a * inject_Z (Z.of_nat (List.length t)))%Q by ring.
      now apply Qplus_le_compat.
    + setoid_replace (b * (inject_Z (Z.of_nat (List.length t)) + 1))%Q
        with (b + b * inject_Z (Z.of_nat (List.length t)))%Q by ring.
      now apply Qplus_le_compat.
Qed.

(** The mean of a non-empty column lies between any bounds of its
    values. *)
Lemma agg_mean_bounds (a b : Q) (l : list Q) :
  l <> [] ->
  (forall x, In x l -> (a <= x <= b)%Q) ->
  (a <= agg_mean l <= b)%Q.
Proof.
  intros Hne Hall. unfold agg_mean.
  assert (Hpos : (0 < inject_Z (Z.of_nat (List.length l)))%Q).
  { apply inject_nat_pos. destruct l; [contradiction | simpl; lia]. }
  destruct (agg_sum_bounds a b l Hall) as [Ha Hb]. split.
  - now apply Qle_shift_div_l.
  - now apply Qle_shift_div_r.
Qed.

Lemma percent_of_flags {A : Type} (flag : A -> bool) (l : list A) :
  l <> [] ->
  (0 <= agg_mean (map (fun x => bool_Q (flag x)) l) * 100 <= 100)%Q.
Proof.
  intros Hne.
  destruct (agg_mean_bounds 0 1 (map (fun x => bool_Q (flag x)) l))
    as [H0 H1].
  - destruct l; [contradiction | discriminate].
  - intros x Hx. apply in_map_iff in Hx. destruct Hx as [y [<- _]].
    destruct (flag y); simpl; split; discriminate.
  - split.
    + apply Qmult_le_0_compat; [exact H0 | discriminate].
    + setoid_replace 100%Q with (1 * 100)%Q at 2 by ring.
      apply Qmult_le_compat_r; [exact H1 | discriminate].
Qed.

(** five_star_pct and on_time_pct are percentages: between 0 and 100 on
    every input, and 0 when there is no review of a delivered order or no
    delivered order with both delivery dates. *)
Theorem percentages_within_bounds (tb : tables) :
  (0 <= five_star_pct tb <= 100)%Q /\
  (0 <= on_time_pct tb <= 100)%Q /\
  (review_data tb = [] -> five_star_pct tb = 0%Q /\ avg_review tb = 0%Q) /\
  (del_data tb = [] -> on_time_pct tb = 0%Q).
Proof.
  split; [|split; [|split]].
  - unfold five_star_pct.
    destruct (review_data tb) as [|r t] eqn:E;
      [simpl; split; discriminate|].
    apply percent_of_flags. discriminate.
  - unfold on_time_pct.
    destruct (del_data tb) as [|r t] eqn:E;
      [simpl; split; discriminate|].
    apply (percent_of_flags Delivery.on_time). discriminate.
  - intros E. unfold five_star_pct, avg_review. now rewrite E.
  - intros E. unfold on_time_pct. now rewrite E.
Qed.

Lemma review_data_In (tb : tables) (r : Review.t) :
  In r (review_data tb) -> In r (reviews tb).
Proof.
  unfold review_data. rewrite in_map_iff. intros [[r' d] [E Hin]].
  simpl in E. subst r'. apply merge_inner_In in Hin. tauto.
Qed.

(** With review scores from 1 to 5, avg_review_score is either 0 (no
    review of a delivered order) or between 1 and 5. *)
Theorem avg_review_within_scores (tb : tables) :
  (forall r, In r (reviews tb) -> (1 <= Review.review_score r <= 5)%Z) ->
  if is_empty (review_data tb) then avg_review tb = 0%Q
  else (1 <= avg_review tb <= 5)%Q.
Proof.
  intros Hscores. unfold avg_review.
  destruct (review_data tb) as [|r t] eqn:E; [reflexivity|].
  cbn [is_empty]. apply agg_mean_bounds; [discriminate|].
  intros x Hx. apply in_map_iff in Hx. destruct Hx as [y [<- Hy]].
  rewrite <- E in Hy. apply review_data_In in Hy.
  specialize (Hscores y Hy).
  change 1%Q with (inject_Z 1). change 5%Q with (inject_Z 5).
  rewrite <- !Zle_Qle. exact Hscores.
Qed.

Lemma percentages_within_bounds_witness :
  review_data no_delivered_tables = [] /\
  five_star_pct no_delivered_tables = 0%Q /\
  avg_review no_delivered_tables = 0%Q.
Proof.
  assert (E : review_data no_delivered_tables = []) by reflexivity.
  split; [exact E|].
  exact (proj1 (proj2 (proj2 (percentages_within_bounds
                                no_delivered_tables))) E).
Defined.

Lemma avg_review_within_scores_witness :
  (forall r, In r (reviews review_tables) ->
     (1 <= Review.review_score r <= 5)%Z) /\
  (1 <= avg_review review_tables <= 5)%Q.
Proof.
  assert (Hs : forall r, In r (reviews review_tables) ->
                 (1 <= Review.review_score r <= 5)%Z).
  { intros r [<-|[<-|[<-|[]]]]; simpl; lia. }
  split; [exact Hs|]. exact (avg_review_within_scores review_tables Hs).
Defined.

Example review_kpis_sample :
  Qred (avg_review review_tables) = (9 # 2)%Q /\
  Qred (five_star_pct review_tables) = (50 # 1)%Q.
Proof. split; vm_compute; reflexivity. Qed.

Lemma pay_merged_In (tb : tables) (p : Payment.t) :
  In p (pay_merged tb) -> In p (payments tb).
Proof.
  unfold pay_merged. rewrite in_map_iff. intros [[p' d] [E Hin]].
  simpl in E. subst p'. apply merge_inner_In in Hin. tauto.
Qed.

Lemma agg_sum_nonneg (l : list Q) :
  (forall x, In x l -> (0 <= x)%Q) -> (0 <= agg_sum l)%Q.
Proof.
  induction l as [|x t IH]; simpl; intros Hall; [discriminate|].
  setoid_replace 0%Q with (0 + 0)%Q by ring.
  apply Qplus_le_compat; [apply Hall; now left|].
  apply IH. intros y Hy. apply Hall. now right.
Qed.

Lemma agg_sum_filter_le {A : Type} (f : A -> Q) (p : A -> bool)
  (l : list A) :
  (forall x, In x l -> (0 <= f x)%Q) ->
  (agg_sum (map f (filter p l)) <= agg_sum (map f l))%Q.
Proof.
  induction l as [|x t IH]; simpl; intros Hall; [discriminate|].
  assert (IH' : (agg_sum (map f (filter p t)) <= agg_sum (map f t))%Q)
    by (apply IH; intros y Hy; apply Hall; now right).
  destruct (p x); simpl.
  - apply Qplus_le_compat; [apply Qle_refl | exact IH'].
  - setoid_replace (agg_sum (map f (filter p t)))
      with (0 + agg_sum (map f (filter p t)))%Q by ring.
    apply Qplus_le_compat; [apply Hall; now left | exact IH'].
Qed.

(** The three cases of credit_card_share when no payment value is
    negative. *)
Lemma credit_card_share_cases (tb : tables) :
  (forall p, In p (payments tb) -> (0 <= Payment.payment_value p)%Q) ->
  (pay_merged tb = [] /\ credit_card_share tb = Num 0) \/
  (pay_merged tb <> [] /\
   (agg_sum (map Payment.payment_value (pay_merged tb)) == 0)%Q /\
   credit_card_share tb = NaN) \/
  (pay_merged tb <> [] /\
   ~ (agg_sum (map Payment.payment_value (pay_merged tb)) == 0)%Q /\
   exists q, credit_card_share tb = Num q /\ (0 <= q <= 100)%Q).
Proof.
  intros Hpos. unfold credit_card_share.
  destruct (pay_merged tb) as [|p0 t] eqn:E; [left; auto|right].
  cbn [is_empty]. rewrite <- E.
  assert (Hne : pay_merged tb <> []) by (rewrite E; discriminate).
  assert (Hall : forall p, In p (pay_merged tb) ->
                   (0 <= Payment.payment_value p)%Q)
    by (intros p Hp; apply Hpos; now apply pay_merged_In).
  set (cc := agg_sum (map Payment.payment_value (credit_card_payments tb))).
  set (all := agg_sum (map Payment.payment_value (pay_merged tb))).
  assert (Hcc0 : (0 <= cc)%Q).
  { apply agg_sum_nonneg. intros x Hx. apply in_map_iff in Hx.
    destruct Hx as [p [<- Hp]]. unfold credit_card_payments in Hp.
    apply filter_In in Hp. apply Hall. tauto. }
  assert (Hle : (cc <= all)%Q)
    by (unfold cc, all, credit_card_payments; now apply agg_sum_filter_le).
  unfold truediv. destruct (Qeq_bool all 0) eqn:E0.
  - left. apply Qeq_bool_iff in E0.
    assert (Hc : Qeq_bool cc 0 = true).
    { apply Qeq_bool_iff. apply Qle_antisym; [now rewrite <- E0 | exact Hcc0]. }
    rewrite Hc. simpl. auto.
  - right. apply Qeq_bool_neq in E0. simpl.
    assert (Hpos' : (0 < all)%Q).
    { destruct (Qle_lt_or_eq 0 all (Qle_trans _ _ _ Hcc0 Hle))
        as [Hlt|Heq]; [exact Hlt|].
      exfalso. apply E0. symmetry. exact Heq. }
    split; [exact Hne|]. split; [exact E0|].
    eexists. split; [reflexivity|]. split.
    + apply Qmult_le_0_compat; [|discriminate].
      apply Qle_shift_div_l; [exact Hpos'|]. now rewrite Qmult_0_l.
    + setoid_replace 100%Q with (1 * 100)%Q at 2 by ring.
      apply Qmult_le_compat_r; [|discriminate].
      apply Qle_shift_div_r; [exact Hpos'|]. now rewrite Qmult_1_l.
Qed.

(** With payment values that are not negative, credit_card_share is NaN
    exactly when there are payments of delivered orders and their values
    add up to 0 (the guard of the batch export tests whether there are
    such payments, not whether the divisor is zero); it is 0 when there
    are none, never infinite, and otherwise a number between 0 and 100. *)
Theorem credit_card_share_range (tb : tables) :
  (forall p, In p (payments tb) -> (0 <= Payment.payment_value p)%Q) ->
  (credit_card_share tb = NaN <->
   pay_merged tb <> [] /\
   (agg_sum (map Payment.payment_value (pay_merged tb)) == 0)%Q) /\
  (pay_merged tb = [] -> credit_card_share tb = Num 0) /\
  (forall negative, credit_card_share tb <> Inf negative) /\
  (forall q, credit_card_share tb = Num q -> (0 <= q <= 100)%Q).
Proof.
  intros Hpos.
  destruct (credit_card_share_cases tb Hpos)
    as [[He Hs]|[[Hne [Hz Hs]]|[Hne [Hnz [q [Hs Hq]]]]]].
  - split; [|split; [|split]].
    + rewrite Hs. split; [discriminate | intros [Hne _]; contradiction].
    + intros _. exact Hs.
    + intros b. rewrite Hs. discriminate.
    + intros q E. rewrite Hs in E. inversion E; subst.
      split; discriminate.
  - split; [|split; [|split]].
    + split; [intros _; auto | intros _; exact Hs].
    + intros He. contradiction.
    + intros b. rewrite Hs. discriminate.
    + intros q E. rewrite Hs in E. discriminate.
  - split; [|split; [|split]].
    + rewrite Hs. split; [discriminate | intros [_ Hz]; contradiction].
    + intros He. contradiction.
    + intros b. rewrite Hs. discriminate.
    + intros q' E. rewrite Hs in E. inversion E; subst. exact Hq.
Qed.

Lemma credit_card_share_range_witness :
  (forall p, In p (payments zero_value_tables) ->
     (0 <= Payment.payment_value p)%Q) /\
  pay_merged zero_value_tables <> [] /\
  (agg_sum (map Payment.payment_value (pay_merged zero_value_tables))
   == 0)%Q /\
  credit_card_share zero_value_tables = NaN.
Proof.
  assert (Hp : forall p, In p (payments zero_value_tables) ->
                 (0 <= Payment.payment_value p)%Q).
  { intros p [<-|[]]. simpl. discriminate. }
  assert (Hne : pay_merged zero_value_tables <> [])
    by (vm_compute; discriminate).
  assert (Hz : (agg_sum (map Payment.payment_value
                           (pay_merged zero_value_tables)) == 0)%Q)
    by (vm_compute; reflexivity).
  split; [exact Hp|]. split; [exact Hne|]. split; [exact Hz|].
  exact (proj2 (proj1 (credit_card_share_range zero_value_tables Hp))
           (conj Hne Hz)).
Defined.

Example credit_card_share_sample :
  credit_card_share zero_value_tables = NaN /\
  credit_card_share no_delivered_tables = Num 0 /\
  match credit_card_share sample_tables with
  | Num q => Qred q = (1500 # 19)%Q
  | _ => False
  end.
Proof. repeat split; vm_compute; reflexivity. Qed.

(** ** Months in order *)

(** The monthly table has one row per year_month of the master table, in
    strictly ascending order. *)
Theorem monthly_months_ascending (m : list MasterRow.t) :
  (forall ym, In ym (map Monthly.year_month (monthly m)) <->
     exists r, In r m /\ MasterRow.year_month r = ym) /\
  NoDup (map Monthly.year_month (monthly m)) /\
  (forall i a b,
     nth_error (monthly m) i = Some a ->
     nth_error (monthly m) (S i) = Some b ->
     (Monthly.year_month a <? Monthly.year_month b) = true).
Proof.
  assert (Hperm : Permutation
            (map fst (groupby (fun r => Some (MasterRow.year_month r)) m))
            (map Monthly.year_month (monthly m))).
  { unfold monthly.
    rewrite <- (Permutation_map Monthly.year_month (sort_values_perm _ _)).
    rewrite map_map. simpl. reflexivity. }
  assert (Hn : NoDup (map Monthly.year_month (monthly m))).
  { eapply Permutation_NoDup; [exact Hperm|].
    apply (groupby_keys_NoDup (fun r => Some (MasterRow.year_month r))). }
  split; [|split; [exact Hn|]].
  - intros ym. split.
    + intros Hin. apply (Permutation_in _ (Permutation_sym Hperm)) in Hin.
      apply groupby_keys in Hin. destruct Hin as [r [Hr E]].
      exists r. split; [exact Hr | congruence].
    + intros [r [Hr E]]. apply (Permutation_in _ Hperm).
      apply groupby_keys. exists r. split; [exact Hr | now rewrite E].
  - intros i a b Ha Hb.
    assert (Hs : Sorted (fun x y => (x <=? y) = true)
                   (map Monthly.year_month (monthly m))).
    { apply Sorted_map_iff. unfold monthly. apply sort_values_sorted.
      intros x y. apply String.leb_total. }
    assert (Ha' : nth_error (map Monthly.year_month (monthly m)) i
                  = Some (Monthly.year_month a))
      by (rewrite nth_error_map, Ha; reflexivity).
    assert (Hb' : nth_error (map Monthly.year_month (monthly m)) (S i)
                  = Some (Monthly.year_month b))
      by (rewrite nth_error_map, Hb; reflexivity).
    apply string_ltb_of_leb.
    + exact (Sorted_adjacent _ _ i _ _ Hs Ha' Hb').
    + exact (NoDup_adjacent _ i _ _ Hn Ha' Hb').
Qed.

Lemma monthly_months_ascending_witness :
  exists a b,
    nth_error (monthly (master growth_tables)) 0 = Some a /\
    nth_error (monthly (master growth_tables)) 1 = Some b /\
    (Monthly.year_month a <? Monthly.year_month b) = true.
Proof.
  assert (E : exists a b,
             nth_error (monthly (master growth_tables)) 0 = Some a /\
             nth_error (monthly (master growth_tables)) 1 = Some b)
    by (vm_compute; eauto).
  destruct E as [a [b [Ha Hb]]]. exists a, b.
  split; [exact Ha|]. split; [exact Hb|].
  exact (proj2 (proj2 (monthly_months_ascending (master growth_tables)))
           0%nat a b Ha Hb).
Defined.

(** ** The instalment tables of the two entry points *)

Lemma strictly_ascending_NoDup (l : list Z) :
  StronglySorted Z.lt l -> NoDup l.
Proof.
  induction 1 as [|x t Ht IH Hall]; constructor; [|exact IH].
  rewrite Forall_forall in Hall. intros Hin.
  specialize (Hall x Hin). lia.
Qed.

Lemma NoDup_within_one_to_ten (l : list Z) :
  NoDup l -> (forall k, In k l -> (1 <= k <= 10)%Z) ->
  (List.length l <= 10)%nat.
Proof.
  intros Hn Hr.
  change 10%nat with (List.length (map Z.of_nat (seq 1 10))).
  apply NoDup_incl_length; [exact Hn|].
  intros k Hk. specialize (Hr k Hk). apply in_map_iff.
  exists (Z.to_nat k). split; [lia|]. apply in_seq. lia.
Qed.

(** When every credit-card payment of a delivered order has between 1 and
    10 instalments, the instalment table of the batch export and that of
    the interactive view are the same. *)
Theorem installments_agree_up_to_ten (tb : tables) :
  (forall p, In p (pay_merged tb) ->
     Payment.payment_type p = "credit_card" ->
     (1 <= Payment.payment_installments p <= 10)%Z) ->
  installments tb = inst tb.
Proof.
  intros Hr.
  assert (Hkeys : forall r, In r (installment_groups tb) ->
            (1 <= Installment.payment_installments r <= 10)%Z).
  { intros r Hin.
    assert (Hk : In (Installment.payment_installments r)
                   (map Installment.payment_installments
                      (installment_groups tb))) by now apply in_map.
    apply installment_groups_In in Hk. destruct Hk as [p [Hp [Hcc E]]].
    rewrite <- E. now apply Hr. }
  rewrite installments_head. unfold inst.
  rewrite filter_all.
  - apply firstn_all2.
    rewrite <- (length_map Installment.payment_installments).
    transitivity 10%nat; [|lia].
    apply NoDup_within_one_to_ten.
    + apply strictly_ascending_NoDup, installment_groups_ascending.
    + intros k Hk. apply in_map_iff in Hk. destruct Hk as [r [<- Hin]].
      now apply Hkeys.
  - intros r Hin. specialize (Hkeys r Hin).
    apply andb_true_iff. rewrite !Z.leb_le. exact Hkeys.
Qed.

Lemma installments_agree_up_to_ten_witness :
  (forall p, In p (pay_merged card_tables) ->
     Payment.payment_type p = "credit_card" ->
     (1 <= Payment.payment_installments p <= 10)%Z) /\
  installments card_tables = inst card_tables /\
  map Installment.payment_installments (installments card_tables)
  = [3%Z; 10%Z].
Proof.
  assert (Hr : forall p, In p (pay_merged card_tables) ->
                 Payment.payment_type p = "credit_card" ->
                 (1 <= Payment.payment_installments p <= 10)%Z).
  { intros p Hp _. vm_compute in Hp.
    destruct Hp as [<-|[<-|[<-|[]]]]; simpl; lia. }
  split; [exact Hr|].
  split; [exact (installments_agree_up_to_ten card_tables Hr)|].
  vm_compute. reflexivity.
Defined.

(** ** The quarter filter of the interactive view *)

Lemma window_quarter_check :
  forallb
    (fun ym : nat * nat =>
       implb (in_window (zfill 4 (fst ym) ++ "-" ++ zfill 2 (snd ym)))
             ("2017Q1" <=? zfill 4 (fst ym) ++ "Q"
                           ++ zfill 1 (quarter_of_month (snd ym))))
    (list_prod (seq 1677 586) (seq 1 12)) = true.
Proof. vm_compute. reflexivity. Qed.

Lemma window_quarter (t : timestamp) :
  valid_timestamp t ->
  in_window (period_M_str (Some t)) = true ->
  ("2017Q1" <=? period_Q_str (Some t)) = true.
Proof.
  intros [Hy Hm] Hw. pose proof window_quarter_check as Hall.
  rewrite forallb_forall in Hall.
  specialize (Hall (year t, month t)).
  cbn [fst snd] in Hall. unfold period_M_str in Hw. rewrite Hw in Hall.
  apply Hall. apply in_prod; apply in_seq; lia.
Qed.

(** When the purchase timestamps are ones pandas can hold, the filter
    [quarter >= '2017Q1'] of the interactive view removes nothing: every
    quarter of its master table already passes it. *)
Theorem app_quarter_filter_keeps_all (tb : tables) :
  (forall o t, In o (orders tb) ->
     Order.order_purchase_timestamp o = Some t -> valid_timestamp t) ->
  filter (fun g => "2017Q1" <=? AppQuarterly.quarter g)
         (app_quarterly_sorted tb)
  = app_quarterly_sorted tb.
Proof.
  intros Hvalid. apply filter_all. intros g Hg.
  unfold app_quarterly_sorted in Hg.
  apply sort_values_In, in_map_iff in Hg. destruct Hg as [grp [<- Hgrp]].
  simpl.
  assert (Hk : In (fst grp)
                 (map fst (groupby (fun r => Some (AppMasterRow.quarter r))
                             (app_master tb))))
    by now apply in_map.
  apply groupby_keys in Hk. destruct Hk as [r [Hr E]]. inversion E as [Eq].
  apply app_master_In in Hr. destruct Hr as [Hd [_ Hw]].
  apply delivered_In in Hd. destruct Hd as [Ho [_ [Hym Hq]]].
  unfold AppMasterRow.quarter, AppMasterRow.year_month in *.
  rewrite Hq. rewrite Hym in Hw.
  destruct (in_window_parsed _ Hw) as [t Ht].
  rewrite Ht in *. apply window_quarter; [|exact Hw].
  exact (Hvalid _ t Ho Ht).
Qed.

Lemma app_quarter_filter_keeps_all_witness :
  (forall o t, In o (orders growth_tables) ->
     Order.order_purchase_timestamp o = Some t -> valid_timestamp t) /\
  filter (fun g => "2017Q1" <=? AppQuarterly.quarter g)
         (app_quarterly_sorted growth_tables)
  = app_quarterly_sorted growth_tables.
Proof.
  assert (Hv : forall o t, In o (orders growth_tables) ->
                 Order.order_purchase_timestamp o = Some t ->
                 valid_timestamp t).
  { intros o t [<-|[<-|[<-|[<-|[]]]]] E; inversion E; subst;
      unfold valid_timestamp; simpl; lia. }
  split; [exact Hv|]. exact (app_quarter_filter_keeps_all growth_tables Hv).
Defined.

(** The growth of the interactive view is not rounded; rounded to one
    decimal it is, on these tables, the growth of the batch export. *)
Example app_quarterly_sample :
  map (fun g => (AppQuarterly.quarter g,
                 Float64.np_round 1 (AppQuarterly.growth g)))
      (app_quarterly growth_tables)
  = map (fun q => (Quarterly.quarter q, Quarterly.growth_pct q))
        (quarterly (master growth_tables)) /\
  map AppQuarterly.growth (app_quarterly growth_tables)
  <> map Quarterly.growth_pct (quarterly (master growth_tables)).
Proof.
  split; [vm_compute; reflexivity|].
  intros E.
  apply (f_equal (fun l => match l with
                           | _ :: g :: _ =>
                               PrimFloat.ltb
                                 (PrimFloat.div (Float64.of_Z 333)
                                    (Float64.of_Z 10)) g
                           | _ => false
                           end)) in E.
  vm_compute in E. discriminate E.
Qed.

(** ** Enriching adds no rows *)

(** With product ids that are unique in the Product table and category
    names that are unique in the translation table, the two left merges
    add columns and no rows: both entry points have exactly one enriched
    row per item, in the order of the Item table. *)
Theorem items_enriched_one_row_per_item (its : list Item.t)
  (prods : list Product.t) (trs : list Translation.t) :
  NoDup (map Product.product_id prods) ->
  NoDup (map Translation.product_category_name trs) ->
  map EnrichedItem.item (items_enriched its prods trs) = its /\
  map (fun e => EnrichedItem.item (AppItem.merged e)) (items_e its prods trs)
  = its.
Proof.
  intros Hp Ht.
  assert (Hm : map EnrichedItem.item (items_merged its prods trs) = its).
  { unfold items_merged. rewrite map_map. simpl.
    rewrite <- (map_map fst fst).
    rewrite merge_left_fst_unique.
    - rewrite map_map. simpl.
      apply merge_left_fst_unique. intros i _.
      apply (unique_key_one_match Product.product_id (Item.product_id i));
        [exact Hp|].
      intros p E. apply String.eqb_eq in E. now symmetry.
    - intros [i c] _. simpl. destruct c as [c|].
      + apply (unique_key_one_match Translation.product_category_name c);
          [exact Ht|].
        intros tr E. apply String.eqb_eq in E. now symmetry.
      + assert (Hnone : forall l : list Translation.t,
                  filter (fun _ => false) l = [])
          by (induction l; auto).
        rewrite Hnone. simpl. lia. }
  split.
  - exact Hm.
  - unfold items_e. rewrite map_map. simpl. exact Hm.
Qed.

Lemma items_enriched_one_row_per_item_witness :
  NoDup (map Product.product_id (products sample_tables)) /\
  NoDup (map Translation.product_category_name (translations sample_tables))
  /\ map EnrichedItem.item
       (items_enriched (items sample_tables) (products sample_tables)
          (translations sample_tables))
     = items sample_tables.
Proof.
  assert (Hp : NoDup (map Product.product_id (products sample_tables)))
    by (simpl; repeat constructor; simpl; intuition discriminate).
  assert (Ht : NoDup (map Translation.product_category_name
                        (translations sample_tables)))
    by (simpl; repeat constructor; simpl; intuition discriminate).
  split; [exact Hp|]. split; [exact Ht|].
  exact (proj1 (items_enriched_one_row_per_item _ _ _ Hp Ht)).
Defined.

(** A product listed twice gives each of its items two enriched rows. *)
Example duplicate_product_doubles_items :
  List.length
    (items_enriched [itm "o1" "p1" "s1" (30 # 1) (5 # 1)]
       [{| Product.product_id := "p1";
           Product.product_category_name := Some "beleza_saude" |};
        {| Product.product_id := "p1";
           Product.product_category_name := None |}]
       []) = 2%nat.
Proof. reflexivity. Qed.

(** ** Counts over groups *)

Lemma list_sum_map_plus {A : Type} (g h : A -> nat) (l : list A) :
  list_sum (map (fun x => g x + h x)%nat l)
  = (list_sum (map g l) + list_sum (map h l))%nat.
Proof. induction l as [|x t IH]; simpl; [reflexivity | lia]. Qed.

Section GroupCounts.
Context {R K : Type} `{KeyType K} (key : R -> option K).

Lemma indicator_count (k0 : K) (keys : list K) :
  NoDup keys ->
  list_sum (map (fun k => if keqb k0 k then 1 else 0)%nat keys)
  = if existsb (keqb k0) keys then 1%nat else 0%nat.
Proof.
  induction 1 as [|k t Hk Hn IH]; simpl; [reflexivity|].
  rewrite IH. destruct (keqb k0 k) eqn:E; simpl; [|reflexivity].
  apply keqb_eq in E. subst k.
  destruct (existsb (keqb k0) t) eqn:Ex; [|reflexivity].
  apply existsb_keqb in Ex. contradiction.
Qed.

Lemma count_over_keys (keys : list K) (rows : list R) :
  NoDup keys ->
  list_sum (map (fun k => List.length (filter (has_key key k) rows)) keys)
  = List.length (filter (key_among key keys) rows).
Proof.
  intros Hn. induction rows as [|r t IH].
  - simpl. clear Hn. induction keys as [|k ks IHk]; simpl; auto.
  - simpl. unfold key_among at 1, has_key.
    destruct (key r) as [k0|] eqn:Ek; [|exact IH].
    rewrite (map_ext _
               (fun k => (if keqb k0 k then 1 else 0)
                         + List.length (filter (has_key key k) t))%nat)
      by (intros k; unfold has_key; destruct (keqb k0 k); reflexivity).
    rewrite list_sum_map_plus, indicator_count by assumption.
    fold (has_key key) in IH. rewrite IH.
    destruct (existsb (keqb k0) keys); reflexivity.
Qed.

(** The sizes of the groups add up to the number of rows with a key. *)
Lemma groupby_count (rows : list R) :
  list_sum (map (fun g => List.length (snd g)) (groupby key rows))
  = List.length (filter (fun r => present (key r)) rows).
Proof.
  unfold groupby. rewrite map_map. simpl.
  set (keys := sort_values kleb (unique (dropna (map key rows)))).
  rewrite count_over_keys.
  - rewrite (filter_ext_in (key_among key keys)
               (fun r => present (key r))); [reflexivity|].
    intros r Hr. unfold key_among. destruct (key r) as [k|] eqn:Ek;
      [|reflexivity].
    simpl. apply existsb_keqb. unfold keys.
    rewrite sort_values_In, unique_In, dropna_In, <- Ek. now apply in_map.
  - eapply Permutation_NoDup; [apply sort_values_perm|apply unique_NoDup].
Qed.

End GroupCounts.

Lemma filter_count_occ {A : Type} (score : A -> Z) (s : Z) (l : list A) :
  List.length (filter (fun r => (score r =? s)%Z) l)
  = count_occ Z.eq_dec (map score l) s.
Proof.
  induction l as [|r t IH]; simpl; [reflexivity|].
  destruct (Z.eq_dec (score r) s) as [E|E].
  - rewrite E, Z.eqb_refl. simpl. now rewrite IH.
  - apply Z.eqb_neq in E. now rewrite E.
Qed.

(** The review histogram lists the scores in strictly ascending order,
    each with the number of reviews of delivered orders that gave it (at
    least one), and its counts add up to the number of those reviews. *)
Theorem review_dist_counts (tb : tables) :
  StronglySorted Z.lt (map fst (review_dist tb)) /\
  list_sum (map snd (review_dist tb)) = List.length (review_data tb) /\
  (forall s n, In (s, n) (review_dist tb) ->
     (1 <= n)%nat /\
     n = count_occ Z.eq_dec
           (map Review.review_score (review_data tb)) s).
Proof.
  unfold review_dist. split; [|split].
  - rewrite map_map. simpl. apply Z_sorted_strict.
    + exact (groupby_keys_sorted (fun r => Some (Review.review_score r))
               (review_data tb)).
    + apply (groupby_keys_NoDup (fun r => Some (Review.review_score r))).
  - rewrite map_map. simpl.
    rewrite (groupby_count (fun r => Some (Review.review_score r))).
    now rewrite filter_all.
  - intros s n Hin. apply in_map_iff in Hin.
    destruct Hin as [g [E Hg]]. inversion E; subst. clear E.
    pose proof (groupby_group _ _ _ Hg) as Hrows.
    assert (Hk : In (fst g)
                   (map fst (groupby (fun r => Some (Review.review_score r))
                               (review_data tb)))) by now apply in_map.
    apply groupby_keys in Hk. destruct Hk as [r [Hr Er]].
    rewrite Hrows. split.
    + assert (Hin : In r (filter (has_key (fun r => Some
                            (Review.review_score r)) (fst g))
                            (review_data tb))).
      { apply filter_In. split; [exact Hr|]. now apply has_key_true. }
      destruct (filter _ (review_data tb)); [contradiction | simpl; lia].
    + exact (filter_count_occ Review.review_score (fst g) (review_data tb)).
Qed.

Lemma review_dist_counts_witness :
  In (5%Z, 1%nat) (review_dist review_tables) /\
  (1 <= 1)%nat /\
  1%nat = count_occ Z.eq_dec
            (map Review.review_score (review_data review_tables)) 5%Z.
Proof.
  assert (Hin : In (5%Z, 1%nat) (review_dist review_tables))
    by (vm_compute; right; left; reflexivity).
  split; [exact Hin|].
  exact (proj2 (proj2 (review_dist_counts review_tables)) 5%Z 1%nat Hin).
Defined.

(** ** Category trend *)

Lemma isin_In (values : list string) (c : option string) :
  isin values c = true <-> exists s, c = Some s /\ In s values.
Proof.
  unfold isin. destruct c as [s|].
  - rewrite existsb_exists. split.
    + intros [v [Hv E]]. apply String.eqb_eq in E. subst v. now exists s.
    + intros [s' [E Hs]]. inversion E; subst s'.
      exists s. split; [exact Hs | apply String.eqb_refl].
  - split; [discriminate | intros [s [E _]]; discriminate].
Qed.

(** The category trend covers at most five categories, the first five of
    the category table; every row is a month and one of those categories
    that occur together in the master table; the rows ascend by month;
    and their revenue adds up to the item prices of the master rows of
    those categories. *)
Theorem cat_monthly_top_five (m : list MasterRow.t) :
  (List.length (top5_cats m) <= 5)%nat /\
  (forall g, In g (cat_monthly m) ->
     In (CategoryMonth.product_category_name_english g) (top5_cats m) /\
     exists r, In r m /\
       MasterRow.year_month r = CategoryMonth.year_month g /\
       MasterRow.product_category_name_english r
       = Some (CategoryMonth.product_category_name_english g)) /\
  Sorted (fun a b => (CategoryMonth.year_month a
                      <=? CategoryMonth.year_month b) = true)
         (cat_monthly m) /\
  (agg_sum (map CategoryMonth.revenue (cat_monthly m))
   == agg_sum (map MasterRow.price
                 (filter (fun r => isin (top5_cats m)
                            (MasterRow.product_category_name_english r))
                         m)))%Q.
Proof.
  unfold cat_monthly.
  set (rows := filter _ m).
  set (key := fun r : MasterRow.t =>
                match MasterRow.product_category_name_english r with
                | Some c => Some (MasterRow.year_month r, c)
                | None => None
                end).
  split; [|split; [|split]].
  - unfold top5_cats, head. rewrite length_map. apply firstn_le_length.
  - intros g Hg. apply sort_values_In, in_map_iff in Hg.
    destruct Hg as [grp [<- Hgrp]]. simpl.
    assert (Hk : In (fst grp) (map fst (groupby key rows)))
      by now apply in_map.
    apply groupby_keys in Hk. destruct Hk as [r [Hr Er]].
    unfold rows in Hr. apply filter_In in Hr. destruct Hr as [Hr Hin].
    unfold key in Er.
    destruct (MasterRow.product_category_name_english r) as [c|] eqn:Ec;
      [|discriminate].
    inversion Er as [Ekey]. simpl. split.
    + apply isin_In in Hin. destruct Hin as [s [Es Hs]].
      inversion Es; subst s. exact Hs.
    + exists r. auto.
  - apply sort_values_sorted. intros a b. apply String.leb_total.
  - rewrite <- (agg_sum_perm _ _ (Permutation_map CategoryMonth.revenue
                                    (sort_values_perm _ _))).
    rewrite map_map. simpl.
    rewrite (groupby_sum key MasterRow.price rows).
    rewrite filter_all; [reflexivity|].
    intros r Hr. unfold rows in Hr. apply filter_In in Hr.
    destruct Hr as [_ Hin]. apply isin_In in Hin.
    destruct Hin as [s [Es _]]. unfold key. now rewrite Es.
Qed.

Lemma cat_monthly_top_five_witness :
  exists g,
    In g (cat_monthly (master sample_tables)) /\
    In (CategoryMonth.product_category_name_english g)
       (top5_cats (master sample_tables)).
Proof.
  assert (E : exists g, In g (cat_monthly (master sample_tables)))
    by (vm_compute; eexists; left; reflexivity).
  destruct E as [g Hg]. exists g. split; [exact Hg|].
  exact (proj1 (proj1 (proj2 (cat_monthly_top_five (master sample_tables)))
                  g Hg)).
Defined.

Example cat_monthly_sample :
  map (fun g => (CategoryMonth.year_month g,
                 CategoryMonth.product_category_name_english g,
                 Qred (CategoryMonth.revenue g)))
      (cat_monthly (master sample_tables))
  = [("2017-02", "health_beauty", (30 # 1)%Q)].
Proof. vm_compute. reflexivity. Qed.

(** ** Top categories of the interactive view *)

Lemma StronglySorted_skipn {A : Type} (P : A -> A -> Prop) (n : nat)
  (l : list A) :
  StronglySorted P l -> StronglySorted P (skipn n l).
Proof.
  revert l. induction n as [|n IH]; intros l Hs; [exact Hs|].
  destruct l as [|x t]; [constructor|].
  simpl. apply IH. now inversion Hs.
Qed.

Lemma ascending_sorted {A : Type} (value : A -> Q) (l : list A) :
  StronglySorted (fun a b => (value a <= value b)%Q)
    (sort_values (fun a b => Qle_bool (value a) (value b)) l).
Proof.
  apply Sorted_StronglySorted.
  - intros a b c Hab Hbc. now apply Qle_trans with (value b).
  - assert (Htot : forall a b,
              Qle_bool (value a) (value b) = true \/
              Qle_bool (value b) (value a) = true).
    { intros a b. rewrite !Qle_bool_iff.
      destruct (Qlt_le_dec (value a) (value b)) as [Hlt|Hle];
        [left; now apply Qlt_le_weak | now right]. }
    pose proof (sort_values_sorted
                  (fun a b => Qle_bool (value a) (value b)) Htot l) as Hs.
    induction Hs as [|x t Ht IH Hhd]; constructor; [exact IH|].
    destruct Hhd as [|y t' Hxy]; constructor.
    now apply Qle_bool_iff.
Qed.

(** The interactive view keeps at most ten categories, each once, in
    order of rising revenue, and every category it leaves out has a
    revenue no larger than each one it keeps. *)
Theorem app_cats_top_ten (tb : tables) :
  (List.length (app_cats tb) <= 10)%nat /\
  NoDup (map fst (app_cats tb)) /\
  StronglySorted (fun a b : string * Q => (snd a <= snd b)%Q) (app_cats tb) /\
  (forall grp kept,
     In grp (groupby AppMasterRow.category (app_master tb)) ->
     In kept (app_cats tb) ->
     In (fst grp, agg_sum (map app_price (snd grp))) (app_cats tb) \/
     (List.length (app_cats tb) = 10%nat /\
      (agg_sum (map app_price (snd grp)) <= snd kept)%Q)).
Proof.
  unfold app_cats, tail.
  set (rows := map _ (groupby AppMasterRow.category (app_master tb))).
  set (s := sort_values _ rows).
  set (k := (List.length s - 10)%nat).
  assert (Hs : StronglySorted (fun a b : string * Q => (snd a <= snd b)%Q) s)
    by apply (ascending_sorted snd).
  split; [rewrite length_skipn; unfold k; lia|].
  split; [|split].
  - assert (Hn : NoDup (map fst s)).
    { eapply Permutation_NoDup;
        [apply Permutation_map, sort_values_perm|].
      unfold rows. rewrite map_map. simpl.
      apply (groupby_keys_NoDup AppMasterRow.category). }
    rewrite <- (firstn_skipn k s), map_app in Hn.
    exact (NoDup_app_remove_l _ _ Hn).
  - now apply StronglySorted_skipn.
  - intros grp kept Hgrp Hkept.
    set (row := (fst grp, agg_sum (map app_price (snd grp)))).
    assert (Hrow : In row s).
    { apply sort_values_In. unfold rows. apply in_map_iff.
      exists grp. auto. }
    rewrite <- (firstn_skipn k s) in Hrow. apply in_app_or in Hrow.
    destruct Hrow as [Hout|Hin]; [right|now left]. split.
    + rewrite length_skipn.
      assert (Hk : (0 < k)%nat).
      { destruct k; [simpl in Hout; contradiction | lia]. }
      unfold k in *. lia.
    + rewrite <- (firstn_skipn k s) in Hs.
      exact (StronglySorted_app_order _ _ _ row kept Hs Hout Hkept).
Qed.

Lemma app_cats_top_ten_witness :
  exists grp kept,
    In grp (groupby AppMasterRow.category (app_master sample_tables)) /\
    In kept (app_cats sample_tables) /\
    (In (fst grp, agg_sum (map app_price (snd grp)))
        (app_cats sample_tables) \/
     (List.length (app_cats sample_tables) = 10%nat /\
      (agg_sum (map app_price (snd grp)) <= snd kept)%Q)).
Proof.
  assert (E : exists grp kept,
             In grp (groupby AppMasterRow.category
                       (app_master sample_tables)) /\
             In kept (app_cats sample_tables))
    by (vm_compute; eexists; eexists; split; left; reflexivity).
  destruct E as [grp [kept [Hg Hk]]]. exists grp, kept.
  split; [exact Hg|]. split; [exact Hk|].
  exact (proj2 (proj2 (proj2 (app_cats_top_ten sample_tables)))
           grp kept Hg Hk).
Defined.
